(** * The carbon assistant request handler (carbon-main-agent.py)

    A shallow embedding of the Lambda handler and of its four helpers.
    Python values that travel through the handler are JSON values; the
    external services (Bedrock, Lambda, SQS, DynamoDB), the clock, the
    UUID source and the [json] module are handles of a [Platform]; a run
    threads the state of the outside world and records every external
    call, in order. *)

From Stdlib Require Import String Ascii List ZArith NArith Bool Lia.
From Stdlib Require Import DecimalString.
From Stdlib Require Import Floats.SpecFloat.
Import ListNotations.

Local Open Scope list_scope.
Local Open Scope string_scope.

(** ** Python values *)

(** What [json.loads] can return.  A [dict] keeps its insertion order,
    so it is an association list; its keys are distinct, and lookup
    takes the first binding. *)
#[warnings="-register-all"]
Inductive json : Type :=
| JNull
| JBool (b : bool)
| JInt (z : Z)
| JFloat (f : spec_float)
| JString (s : string)
| JArray (items : list json)
| JObject (fields : list (string * json)).

(** An exception: its class and what [str(e)] gives. *)
Record PyExc : Type := MkExc { exc_class : string; exc_str : string }.

Definition type_name (v : json) : string :=
  match v with
  | JNull => "NoneType"
  | JBool _ => "bool"
  | JInt _ => "int"
  | JFloat _ => "float"
  | JString _ => "str"
  | JArray _ => "list"
  | JObject _ => "dict"
  end.

Definition AttributeError (v : json) (attr : string) : PyExc :=
  MkExc "AttributeError"
        ("'" ++ type_name v ++ "' object has no attribute '" ++ attr ++ "'").

Definition KeyError (repr_key : string) : PyExc := MkExc "KeyError" repr_key.

Definition IndexError (what : string) : PyExc :=
  MkExc "IndexError" (what ++ " index out of range").

Definition TypeError (msg : string) : PyExc := MkExc "TypeError" msg.

(** [bool(v)], as [if not user_input] evaluates it. *)
Definition truthy (v : json) : bool :=
  match v with
  | JNull => false
  | JBool b => b
  | JInt z => negb (z =? 0)%Z
  | JFloat (S754_zero _) => false
  | JFloat _ => true
  | JString "" => false
  | JString _ => true
  | JArray [] => false
  | JArray _ => true
  | JObject [] => false
  | JObject _ => true
  end.

Fixpoint assoc {A : Type} (k : string) (kv : list (string * A)) : option A :=
  match kv with
  | [] => None
  | (k', v) :: rest => if String.eqb k k' then Some v else assoc k rest
  end.

Definition lookup_or {A : Type} (k : string) (kv : list (string * A))
    (default : A) : A :=
  match assoc k kv with
  | Some v => v
  | None => default
  end.

(** [d.get(key, default)]; anything that is not a [dict] has no [get]. *)
Definition py_get (d : json) (key : string) (default : json) : PyExc + json :=
  match d with
  | JObject kv => inr (lookup_or key kv default)
  | _ => inl (AttributeError d "get")
  end.

(** [v[key]] with a string key. *)
Definition getitem_str (v : json) (key : string) : PyExc + json :=
  match v with
  | JObject kv =>
      match assoc key kv with
      | Some x => inr x
      | None => inl (KeyError ("'" ++ key ++ "'"))
      end
  | JArray _ => inl (TypeError "list indices must be integers or slices, not str")
  | JString _ => inl (TypeError "string indices must be integers, not 'str'")
  | _ => inl (TypeError ("'" ++ type_name v ++ "' object is not subscriptable"))
  end.

(** [v[0]]: the first element of a list, the first character of a
    string; a [dict] decoded from JSON has no integer key. *)
Definition getitem_0 (v : json) : PyExc + json :=
  match v with
  | JArray (x :: _) => inr x
  | JArray [] => inl (IndexError "list")
  | JString (String c _) => inr (JString (String c ""))
  | JString "" => inl (IndexError "string")
  | JObject _ => inl (KeyError "0")
  | _ => inl (TypeError ("'" ++ type_name v ++ "' object is not subscriptable"))
  end.

(** ** Strings *)

(** A Python [str] is a Rocq [string], one character per code point
    below 256.  [str.lower] on that range folds A-Z and the Latin-1
    capitals (all of 192..222 but the multiplication sign 215). *)
Definition lower_char (c : ascii) : ascii :=
  let n := N_of_ascii c in
  if ((65 <=? n) && (n <=? 90)
      || (192 <=? n) && (n <=? 222) && negb (n =? 215))%N
  then ascii_of_N (n + 32)
  else c.

Fixpoint lower (s : string) : string :=
  match s with
  | "" => ""
  | String c rest => String (lower_char c) (lower rest)
  end.

(** [needle in hay] on strings. *)
Fixpoint py_in (needle hay : string) : bool :=
  String.prefix needle hay
  || match hay with
     | "" => false
     | String _ rest => py_in needle rest
     end.

(** [str(n)] for a Python [int]. *)
Definition str_int (z : Z) : string := NilZero.string_of_int (Z.to_int z).

(** [str(uuid.UUID)]: the 128-bit value as 32 lower-case hexadecimal
    digits, grouped 8-4-4-4-12. *)
Definition hex_char (d : N) : ascii :=
  match String.get (N.to_nat d) "0123456789abcdef" with
  | Some c => c
  | None => "0"%char
  end.

Fixpoint hex_digits (k : nat) (n : N) : string :=
  match k with
  | O => ""
  | S k' => hex_digits k' (n / 16) ++ String (hex_char (n mod 16)) ""
  end.

Definition str_uuid (u : N) : string :=
  let h := hex_digits 32 u in
  substring 0 8 h ++ "-" ++ substring 8 4 h ++ "-" ++ substring 12 4 h
  ++ "-" ++ substring 16 4 h ++ "-" ++ substring 20 12 h.

(** ** Constants of the module *)

Definition TABLE_NAME : string := "carbon-assistant-data".

Definition QUEUE_URL : string :=
  "https://sqs.us-east-1.amazonaws.com/[your-account-id]/carbon-bedrock-queue".

Definition MODEL_ID : string := "anthropic.claude-3-5-sonnet-20240620-v1:0".

Definition CALCULATION_FUNCTION : string := "carbon-calculation-agent".

Definition THROTTLING_MARKER : string := "ThrottlingException".

Definition QUEUED_MESSAGE : string :=
  "Your request has been queued due to high demand. You'll receive a response shortly via our notification system. In the meantime, here's some general guidance: Carbon emissions from electricity usage depend on your region's energy mix and the time of consumption. Consider implementing energy efficiency measures and shifting usage to off-peak hours when possible.".

(** ** External calls *)

(** One entry per call that leaves the handler, with its arguments. *)
Inductive Call : Type :=
| LambdaInvoke (function_name invocation_type payload : string)
| BedrockInvokeModel (model_id content_type accept body : string)
| SqsSendMessage (queue_url message_body : string)
                 (attributes : list (string * (string * string)))
| DynamoPutItem (table : string) (item : list (string * json))
| Uuid4
| DatetimeNow
| Print (line : string).

(** The collaborators of the router: the four managed services. *)
Definition is_collaborator (c : Call) : bool :=
  match c with
  | LambdaInvoke _ _ _ | BedrockInvokeModel _ _ _ _
  | SqsSendMessage _ _ _ | DynamoPutItem _ _ => true
  | _ => false
  end.

Definition is_calculation (c : Call) : bool :=
  match c with LambdaInvoke _ _ _ => true | _ => false end.

Definition is_inference (c : Call) : bool :=
  match c with BedrockInvokeModel _ _ _ _ => true | _ => false end.

Definition is_publish (c : Call) : bool :=
  match c with SqsSendMessage _ _ _ => true | _ => false end.

Definition is_put_item (c : Call) : bool :=
  match c with DynamoPutItem _ _ => true | _ => false end.

Definition is_uuid4 (c : Call) : bool :=
  match c with Uuid4 => true | _ => false end.

(** The handles the module holds: the [json] functions, [format] of a
    value inside an f-string, the UUID source, the clock (already as
    [int(datetime.now().timestamp() * 1000)]) and the four clients.
    [W] is the state of the outside world; a client call reads and
    changes it, and either raises or returns.  [lambda_invoke] returns
    what [response['Payload'].read()] gives, [bedrock_invoke_model]
    what [response['body'].read().decode()] gives. *)
Record Platform (W : Type) : Type := MkPlatform {
  json_loads : string -> PyExc + json;
  json_dumps : json -> string;
  format_value : json -> string;
  uuid4 : W -> N * W;
  datetime_now_ms : W -> Z * W;
  lambda_invoke : string -> string -> string -> W -> (PyExc + string) * W;
  bedrock_invoke_model :
    string -> string -> string -> string -> W -> (PyExc + string) * W;
  sqs_send_message :
    string -> string -> list (string * (string * string)) -> W ->
    (PyExc + unit) * W;
  dynamodb_put_item :
    string -> list (string * json) -> W -> (PyExc + unit) * W
}.

Arguments json_loads {W} _ _.
Arguments json_dumps {W} _ _.
Arguments format_value {W} _ _.
Arguments uuid4 {W} _ _.
Arguments datetime_now_ms {W} _ _.
Arguments lambda_invoke {W} _ _ _ _ _.
Arguments bedrock_invoke_model {W} _ _ _ _ _ _.
Arguments sqs_send_message {W} _ _ _ _ _.
Arguments dynamodb_put_item {W} _ _ _ _.

(** ** Runs *)

(** What a computation leaves behind: a value or a raised exception,
    the world after it, and the calls it made, oldest first. *)
Record Run (W A : Type) : Type := MkRun {
  outcome : PyExc + A;
  world : W;
  calls : list Call
}.

Arguments MkRun {W A} _ _ _.
Arguments outcome {W A} _.
Arguments world {W A} _.
Arguments calls {W A} _.

Definition M (W A : Type) : Type := W -> Run W A.

Definition ret {W A} (a : A) : M W A := fun w => MkRun (inr a) w [].

Definition raise {W A} (e : PyExc) : M W A := fun w => MkRun (inl e) w [].

Definition bind {W A B} (m : M W A) (k : A -> M W B) : M W B :=
  fun w =>
    let r := m w in
    match outcome r with
    | inl e => MkRun (inl e) (world r) (calls r)
    | inr a =>
        let r' := k a (world r) in
        MkRun (outcome r') (world r') (calls r ++ calls r')
    end.

(** [try: m except Exception as e: handler e]. *)
Definition try_except {W A} (m : M W A) (handler : PyExc -> M W A) : M W A :=
  fun w =>
    let r := m w in
    match outcome r with
    | inr a => r
    | inl e =>
        let r' := handler e (world r) in
        MkRun (outcome r') (world r') (calls r ++ calls r')
    end.

(** A pure step that may raise. *)
Definition lift {W A} (x : PyExc + A) : M W A :=
  match x with
  | inl e => raise e
  | inr a => ret a
  end.

(** A call of a client: recorded, then answered by the world. *)
Definition perform {W A} (c : Call) (f : W -> (PyExc + A) * W) : M W A :=
  fun w => let (x, w') := f w in MkRun x w' [c].

(** A call that cannot raise. *)
Definition ask {W A} (c : Call) (f : W -> A * W) : M W A :=
  fun w => let (a, w') := f w in MkRun (inr a) w' [c].

Definition print {W} (line : string) : M W unit :=
  fun w => MkRun (inr tt) w [Print line].

Declare Scope py_scope.
Delimit Scope py_scope with py.
Notation "x <- m ;; k" := (bind m (fun x => k))
  (at level 61, m at next level, right associativity) : py_scope.
Notation "m ;; k" := (bind m (fun _ => k))
  (at level 61, right associativity) : py_scope.
Local Open Scope py_scope.

(** ** Values the handler builds *)

(** The dictionary [invoke_bedrock_with_queue] returns. *)
Record InferenceResult : Type := MkResult {
  status : string;
  response : json
}.

(** The dictionary [lambda_handler] returns. *)
Record HttpResponse : Type := MkResponse {
  statusCode : Z;
  headers : list (string * string);
  body : string
}.

(** [json.loads(x)]: only text is decoded. *)
Definition loads_value {W} (P : Platform W) (x : json) : PyExc + json :=
  match x with
  | JString s => json_loads P s
  | _ => inl (TypeError ("the JSON object must be str, bytes or bytearray, not "
                         ++ type_name x))
  end.

(** The item of [store_conversation]. *)
Definition conversation_item (conversation_id : json) (timestamp : string)
    (user_input response : json) : list (string * json) :=
  [ ("conversationId", conversation_id);
    ("timestamp", JString timestamp);
    ("userInput", user_input);
    ("response", response);
    ("type", JString "conversation") ].

(** The message of [enqueue_request]. *)
Definition queue_message (prompt : string) (conversation_id : json)
    (timestamp : string) : json :=
  JObject [ ("prompt", JString prompt);
            ("conversation_id", conversation_id);
            ("timestamp", JString timestamp) ].

(** [MessageAttributes]: attribute name, then its [DataType] and
    [StringValue]. *)
Definition queue_attributes : list (string * (string * string)) :=
  [ ("RequestType", ("String", "bedrock_inference")) ].

Definition request_body (prompt : string) : json :=
  JObject [ ("anthropic_version", JString "bedrock-2023-05-31");
            ("max_tokens", JInt 500);
            ("messages",
             JArray [ JObject [ ("role", JString "user");
                                ("content",
                                 JArray [ JObject [ ("type", JString "text");
                                                    ("text", JString prompt) ] ]) ] ]) ].

Definition queued_result : InferenceResult :=
  MkResult "queued" (JString QUEUED_MESSAGE).

Definition explain_prompt {W} (P : Platform W) (calc_results : json) : string :=
  "Explain these carbon emission calculation results briefly and clearly: "
  ++ format_value P calc_results.

Definition guidance_prompt (user_input : string) : string :=
  "Provide general guidance about carbon emissions for " ++ user_input
  ++ ". Keep it brief.".

Definition bad_request_response {W} (P : Platform W) : HttpResponse :=
  MkResponse 400
    [ ("Content-Type", "application/json") ]
    (json_dumps P (JObject [ ("error", JString "Input is required") ])).

Definition ok_response {W} (P : Platform W) (result : InferenceResult)
    (conversation_id : json) : HttpResponse :=
  MkResponse 200
    [ ("Content-Type", "application/json");
      ("Access-Control-Allow-Origin", "*") ]
    (json_dumps P (JObject [ ("response", response result);
                             ("conversationId", conversation_id);
                             ("status", JString (status result)) ])).

Definition error_response {W} (P : Platform W) (e : PyExc) : HttpResponse :=
  MkResponse 500
    [ ("Content-Type", "application/json") ]
    (json_dumps P (JObject [ ("error", JString (exc_str e)) ])).

(** ** The module's functions *)

Section Handler.

Context {W : Type} (P : Platform W).

Definition store_conversation (conversation_id user_input response : json)
  : M W unit :=
  try_except
    (timestamp <- ask DatetimeNow (datetime_now_ms P) ;;
     let item :=
       conversation_item conversation_id (str_int timestamp) user_input response in
     perform (DynamoPutItem TABLE_NAME item) (dynamodb_put_item P TABLE_NAME item))
    (fun e => print ("DynamoDB error: " ++ exc_str e)).

Definition enqueue_request (prompt : string) (conversation_id : json)
  : M W bool :=
  try_except
    (timestamp <- ask DatetimeNow (datetime_now_ms P) ;;
     let message_body :=
       json_dumps P (queue_message prompt conversation_id (str_int timestamp)) in
     perform (SqsSendMessage QUEUE_URL message_body queue_attributes)
             (sqs_send_message P QUEUE_URL message_body queue_attributes) ;;
     ret true)
    (fun e => print ("SQS error: " ++ exc_str e) ;; ret false).

Definition invoke_bedrock_with_queue (prompt : string) (conversation_id : json)
  : M W InferenceResult :=
  try_except
    (let body := json_dumps P (request_body prompt) in
     raw <- perform
              (BedrockInvokeModel MODEL_ID "application/json" "application/json" body)
              (bedrock_invoke_model P MODEL_ID "application/json" "application/json" body) ;;
     response_body <- lift (json_loads P raw) ;;
     content <- lift (getitem_str response_body "content") ;;
     first <- lift (getitem_0 content) ;;
     text <- lift (getitem_str first "text") ;;
     ret (MkResult "direct" text))
    (fun e =>
       if py_in THROTTLING_MARKER (exc_str e) then
         queued <- enqueue_request prompt conversation_id ;;
         if queued : bool then ret queued_result else raise e
       else raise e).

Definition invoke_calculation_agent (query : json) : M W json :=
  try_except
    (let payload := json_dumps P (JObject [ ("query", query) ]) in
     answer <- perform
                 (LambdaInvoke CALCULATION_FUNCTION "RequestResponse" payload)
                 (lambda_invoke P CALCULATION_FUNCTION "RequestResponse" payload) ;;
     lift (json_loads P answer))
    (fun e =>
       print ("Calculation agent invocation error: " ++ exc_str e) ;;
       raise e).

(** Lines 112-114 of [lambda_handler]: the body is decoded, then
    [input] and [conversationId] are read.  The default of the second
    [get] is an argument, so [uuid.uuid4()] runs before the lookup. *)
Definition parse_request (event : json) : M W (json * json) :=
  raw <- lift (py_get event "body" (JString "{}")) ;;
  body <- lift (loads_value P raw) ;;
  user_input <- lift (py_get body "input" (JString "")) ;;
  fresh <- ask Uuid4 (uuid4 P) ;;
  conversation_id <-
    lift (py_get body "conversationId" (JString (str_uuid fresh))) ;;
  ret (user_input, conversation_id).

(** Lines 124-134: the keyword test, the optional calculation, and the
    inference call.  [user_input.lower()] needs a [str]. *)
Definition route_request (user_input conversation_id : json)
  : M W InferenceResult :=
  match user_input with
  | JString text =>
      if py_in "carbon" (lower text) || py_in "emission" (lower text) then
        prompt <- try_except
                    (calc_results <- invoke_calculation_agent user_input ;;
                     ret (explain_prompt P calc_results))
                    (fun _ => ret (guidance_prompt text)) ;;
        invoke_bedrock_with_queue prompt conversation_id
      else
        invoke_bedrock_with_queue text conversation_id
  | _ => raise (AttributeError user_input "lower")
  end.

(** Lines 137-151: the store, on a direct answer, and the response. *)
Definition respond (user_input conversation_id : json)
    (result : InferenceResult) : M W HttpResponse :=
  (if String.eqb (status result) "direct"
   then store_conversation conversation_id user_input (response result)
   else ret tt) ;;
  ret (ok_response P result conversation_id).

Definition lambda_handler (event : json) : M W HttpResponse :=
  try_except
    (request <- parse_request event ;;
     let (user_input, conversation_id) := request : json * json in
     if negb (truthy user_input) then ret (bad_request_response P)
     else
       result <- route_request user_input conversation_id ;;
       respond user_input conversation_id result)
    (fun e => ret (error_response P e)).

End Handler.

(** ** A scripted platform

    A world in which every client answers from a script, used to run the
    handler on concrete requests.  Its [json] functions and its f-string
    formatting cover the documents the scenarios exchange: text without
    escapes, and no finite non-zero float; [scripted_loads] decodes the
    listed documents only. *)

Definition dq : string := String (ascii_of_nat 34) "".

Fixpoint scripted_dumps (v : json) : string :=
  match v with
  | JNull => "null"
  | JBool true => "true"
  | JBool false => "false"
  | JInt z => str_int z
  | JFloat (S754_zero false) => "0.0"
  | JFloat (S754_zero true) => "-0.0"
  | JFloat (S754_infinity false) => "Infinity"
  | JFloat (S754_infinity true) => "-Infinity"
  | JFloat _ => "NaN"
  | JString s => dq ++ s ++ dq
  | JArray items => "[" ++ String.concat ", " (map scripted_dumps items) ++ "]"
  | JObject fields =>
      "{" ++ String.concat ", "
               (map (fun kv : string * json =>
                       let (k, x) := kv in
                       (dq ++ k ++ dq ++ ": " ++ scripted_dumps x)%string)
                    fields)
          ++ "}"
  end.

(** [repr] of a value, as an f-string shows a dictionary or a list:
    [None], [True], [False], and text in single quotes, or in double
    quotes when it holds a single quote and no double quote. *)
Definition repr_str (s : string) : string :=
  if py_in "'" s && negb (py_in dq s) then dq ++ s ++ dq else "'" ++ s ++ "'".

Fixpoint scripted_repr (v : json) : string :=
  match v with
  | JNull => "None"
  | JBool true => "True"
  | JBool false => "False"
  | JInt z => str_int z
  | JFloat (S754_zero false) => "0.0"
  | JFloat (S754_zero true) => "-0.0"
  | JFloat (S754_infinity false) => "inf"
  | JFloat (S754_infinity true) => "-inf"
  | JFloat _ => "nan"
  | JString s => repr_str s
  | JArray items => "[" ++ String.concat ", " (map scripted_repr items) ++ "]"
  | JObject fields =>
      "{" ++ String.concat ", "
               (map (fun kv : string * json =>
                       let (k, x) := kv in
                       (repr_str k ++ ": " ++ scripted_repr x)%string)
                    fields)
          ++ "}"
  end.

(** [format(v)] inside an f-string: text as it is, anything else by
    its [repr]. *)
Definition scripted_format (v : json) : string :=
  match v with
  | JString s => s
  | _ => scripted_repr v
  end.

Definition commute_question : string :=
  "What's the carbon footprint of my commute?".

Definition model_answer (text : string) : json :=
  JObject [ ("content",
             JArray [ JObject [ ("type", JString "text");
                                ("text", JString text) ] ]) ].

(** The documents [scripted_loads] decodes. *)
Definition documents : list json :=
  [ JObject [];
    JObject [ ("input", JString "Hello") ];
    JObject [ ("input", JString "") ];
    JObject [ ("conversationId", JString "c-1") ];
    JObject [ ("input", JString "Hello"); ("conversationId", JString "") ];
    JObject [ ("input", JString "Hello"); ("conversationId", JString "c-1") ];
    JObject [ ("input", JString commute_question) ];
    JObject [ ("input", JString commute_question);
              ("conversationId", JString "c-1") ];
    JObject [ ("input", JInt 7) ];
    JObject [ ("co2_kg", JInt 4) ];
    JArray [];
    model_answer "Hi there";
    model_answer "About 4 kg of CO2." ].

Definition JSONDecodeError : PyExc :=
  MkExc "JSONDecodeError" "Expecting value: line 1 column 1 (char 0)".

Definition scripted_loads (s : string) : PyExc + json :=
  match assoc s (map (fun v => (scripted_dumps v, v)) documents) with
  | Some v => inr v
  | None => inl JSONDecodeError
  end.

Record Script : Type := MkScript {
  calc_reply : PyExc + string;
  model_reply : PyExc + string;
  queue_reply : PyExc + unit;
  table_reply : PyExc + unit;
  clock : Z;
  entropy : N
}.

Definition scripted : Platform Script :=
  {| json_loads := scripted_loads;
     json_dumps := scripted_dumps;
     format_value := scripted_format;
     uuid4 := fun w =>
       (entropy w,
        MkScript (calc_reply w) (model_reply w) (queue_reply w) (table_reply w)
                 (clock w) (entropy w + 1));
     datetime_now_ms := fun w =>
       (clock w,
        MkScript (calc_reply w) (model_reply w) (queue_reply w) (table_reply w)
                 (clock w + 1) (entropy w));
     lambda_invoke := fun _ _ _ w => (calc_reply w, w);
     bedrock_invoke_model := fun _ _ _ _ w => (model_reply w, w);
     sqs_send_message := fun _ _ _ w => (queue_reply w, w);
     dynamodb_put_item := fun _ _ w => (table_reply w, w) |}.

Definition Throttled : PyExc :=
  MkExc "ClientError"
        "An error occurred (ThrottlingException) when calling the InvokeModel operation: Too many requests".

Definition ServiceDown : PyExc :=
  MkExc "ClientError"
        "An error occurred (ServiceUnavailableException) when calling the operation".

(** An API Gateway event carrying [doc] as its body. *)
Definition event_with (doc : json) : json :=
  JObject [ ("body", JString (scripted_dumps doc)) ].

(** Everything healthy. *)
Definition calm : Script :=
  MkScript (inr (scripted_dumps (JObject [ ("co2_kg", JInt 4) ])))
           (inr (scripted_dumps (model_answer "Hi there")))
           (inr tt) (inr tt) 1700000000000 42.

(** The model is throttled; the queue accepts the request. *)
Definition overloaded : Script :=
  MkScript (calc_reply calm) (inl Throttled) (inr tt) (inr tt) (clock calm)
           (entropy calm).

(** The model is throttled and the queue is down as well. *)
Definition overloaded_queue_down : Script :=
  MkScript (calc_reply calm) (inl Throttled) (inl ServiceDown) (inr tt)
           (clock calm) (entropy calm).

(** The model fails for another reason. *)
Definition model_down : Script :=
  MkScript (calc_reply calm) (inl ServiceDown) (inr tt) (inr tt) (clock calm)
           (entropy calm).

(** The calculation function fails. *)
Definition calc_down : Script :=
  MkScript (inl ServiceDown) (model_reply calm) (inr tt) (inr tt) (clock calm)
           (entropy calm).

(** The table rejects the write. *)
Definition table_down : Script :=
  MkScript (calc_reply calm) (model_reply calm) (inr tt) (inl ServiceDown)
           (clock calm) (entropy calm).

Definition hello_event : json :=
  event_with (JObject [ ("input", JString "Hello") ]).

Definition hello_event_in (conversation_id : string) : json :=
  event_with (JObject [ ("input", JString "Hello");
                        ("conversationId", JString conversation_id) ]).

Definition commute_event : json :=
  event_with (JObject [ ("input", JString commute_question) ]).

(** An event whose body is not JSON. *)
Definition garbled_event : json := JObject [ ("body", JString "oops") ].

(** The world once [parse_request] has drawn its identifier. *)
Definition parsed (w : Script) : Script :=
  snd (uuid4 scripted w).

(** ** Reading a run *)

(** The calls of one kind, in order. *)
Definition calls_of {W A} (kind : Call -> bool) (r : Run W A) : list Call :=
  filter kind (calls r).


(** Lines 81-84 of [invoke_bedrock_with_queue] as one pure step: the
    text of the first content block of the decoded answer. *)
Definition answer_text {W} (P : Platform W) (raw : string) : PyExc + json :=
  match json_loads P raw with
  | inl e => inl e
  | inr response_body =>
      match getitem_str response_body "content" with
      | inl e => inl e
      | inr content =>
          match getitem_0 content with
          | inl e => inl e
          | inr first => getitem_str first "text"
          end
      end
  end.

(** The [try] block of [invoke_bedrock_with_queue] after the client has
    answered [x]: an exception of the call, or of the decoding. *)
Definition direct_answer {W} (P : Platform W) (x : PyExc + string)
  : PyExc + json :=
  match x with
  | inl e => inl e
  | inr raw => answer_text P raw
  end.

(** The [except] clause of [invoke_bedrock_with_queue], entered with
    exception [e] in world [w]. *)
Definition after_failure {W} (P : Platform W) (prompt : string)
    (conversation_id : json) (e : PyExc) (w : W) : Run W InferenceResult :=
  if py_in THROTTLING_MARKER (exc_str e) then
    let r := enqueue_request P prompt conversation_id w in
    MkRun (match outcome r with
           | inr true => inr queued_result
           | _ => inl e
           end)
          (world r) (calls r)
  else MkRun (inl e) w [].

(** The same platform with another DynamoDB table behind it. *)
Definition with_table {W} (P : Platform W)
    (put : string -> list (string * json) -> W -> (PyExc + unit) * W)
  : Platform W :=
  MkPlatform W (json_loads P) (json_dumps P) (format_value P) (uuid4 P)
             (datetime_now_ms P) (lambda_invoke P) (bedrock_invoke_model P)
             (sqs_send_message P) put.

(** The same platform with another UUID source. *)
Definition with_uuid4 {W} (P : Platform W) (gen : W -> N * W) : Platform W :=
  MkPlatform W (json_loads P) (json_dumps P) (format_value P) gen
             (datetime_now_ms P) (lambda_invoke P) (bedrock_invoke_model P)
             (sqs_send_message P) (dynamodb_put_item P).

(** The inference call [invoke_bedrock_with_queue] makes for a prompt. *)
Definition inference_call {W} (P : Platform W) (prompt : string) : Call :=
  BedrockInvokeModel MODEL_ID "application/json" "application/json"
                     (json_dumps P (request_body prompt)).

(** The calculation call [invoke_calculation_agent] makes for a query. *)
Definition calculation_call {W} (P : Platform W) (query : json) : Call :=
  LambdaInvoke CALCULATION_FUNCTION "RequestResponse"
               (json_dumps P (JObject [ ("query", query) ])).

Definition is_print (c : Call) : bool :=
  match c with Print _ => true | _ => false end.

(** The test of line 124. *)
Definition mentions_keyword (text : string) : bool :=
  py_in "carbon" (lower text) || py_in "emission" (lower text).

(** What a call shows of the conversation: a queue message names
    [conversation_id] under its key [conversation_id], a stored item is
    filed under [conversation_id] with [user_input] as the user's side. *)
Definition carries_conversation {W} (P : Platform W)
    (user_input conversation_id : json) (c : Call) : Prop :=
  match c with
  | SqsSendMessage _ message _ =>
      exists prompt timestamp,
        message
        = json_dumps P (JObject [ ("prompt", JString prompt);
                                  ("conversation_id", conversation_id);
                                  ("timestamp", JString timestamp) ])
  | DynamoPutItem _ item =>
      assoc "conversationId" item = Some conversation_id
      /\ assoc "userInput" item = Some user_input
  | _ => True
  end.

(** The model answers with JSON of the wrong shape. *)
Definition model_garbled : Script :=
  MkScript (calc_reply calm) (inr (scripted_dumps (JArray []))) (inr tt) (inr tt)
           (clock calm) (entropy calm).

(** ** Strings: facts *)

Lemma prefix_app (s t : string) : String.prefix s (s ++ t) = true.
Proof.
  induction s as [|c s IH]; simpl.
  - destruct t; reflexivity.
  - destruct (ascii_dec c c) as [_|N]; [exact IH | now elim N].
Qed.

Lemma py_in_app_left (n a b : string) :
  py_in n b = true -> py_in n (a ++ b) = true.
Proof.
  intros H. induction a as [|c a IH]; simpl; [exact H|].
  rewrite IH. apply orb_true_r.
Qed.

Lemma py_in_prefix (n h : string) : String.prefix n h = true -> py_in n h = true.
Proof. intros H. destruct h; simpl in *; rewrite H; reflexivity. Qed.

Lemma py_in_here (n b : string) : py_in n (n ++ b) = true.
Proof. apply py_in_prefix, prefix_app. Qed.

Lemma py_in_middle (a n b : string) : py_in n (a ++ n ++ b) = true.
Proof. apply py_in_app_left, py_in_here. Qed.

Lemma guidance_prompt_mentions (text : string) :
  py_in text (guidance_prompt text) = true.
Proof. unfold guidance_prompt. apply py_in_middle. Qed.

Lemma py_in_empty_hay (n : string) : n <> "" -> py_in n "" = false.
Proof. destruct n; [congruence | reflexivity]. Qed.

Lemma str_uuid_nonempty (u : N) : str_uuid u <> "".
Proof.
  unfold str_uuid.
  destruct (substring 0 8 (hex_digits 32 u)); simpl; discriminate.
Qed.

(** ** The helpers, run *)

Section Runs.

Context {W : Type} (P : Platform W).

(** [store_conversation] asks the clock, attempts one [put_item], logs
    its failure, and never raises. *)
Lemma store_conversation_run (conversation_id user_input answer : json) (w : W) :
  store_conversation P conversation_id user_input answer w =
  let (timestamp, w1) := datetime_now_ms P w in
  let item := conversation_item conversation_id (str_int timestamp)
                                user_input answer in
  let (x, w2) := dynamodb_put_item P TABLE_NAME item w1 in
  MkRun (inr tt) w2
        (DatetimeNow :: DynamoPutItem TABLE_NAME item ::
         match x with
         | inl e => [Print ("DynamoDB error: " ++ exc_str e)]
         | inr _ => []
         end).
Proof.
  unfold store_conversation, try_except, bind, ask, perform, print.
  destruct (datetime_now_ms P w) as [timestamp w1]; cbn.
  destruct (dynamodb_put_item P TABLE_NAME _ w1) as [[e|[]] w2]; reflexivity.
Qed.

(** [enqueue_request] asks the clock, attempts one publish, and turns
    its failure into [False]. *)
Lemma enqueue_request_run (prompt : string) (conversation_id : json) (w : W) :
  enqueue_request P prompt conversation_id w =
  let (timestamp, w1) := datetime_now_ms P w in
  let message :=
    json_dumps P (queue_message prompt conversation_id (str_int timestamp)) in
  let (x, w2) := sqs_send_message P QUEUE_URL message queue_attributes w1 in
  MkRun (inr match x with inl _ => false | inr _ => true end) w2
        (DatetimeNow :: SqsSendMessage QUEUE_URL message queue_attributes ::
         match x with
         | inl e => [Print ("SQS error: " ++ exc_str e)]
         | inr _ => []
         end).
Proof.
  unfold enqueue_request, try_except, bind, ask, perform, print, ret.
  destruct (datetime_now_ms P w) as [timestamp w1]; cbn.
  destruct (sqs_send_message P QUEUE_URL _ queue_attributes w1) as [[e|[]] w2];
    reflexivity.
Qed.

Lemma invoke_bedrock_with_queue_run (prompt : string) (conversation_id : json)
    (w : W) :
  invoke_bedrock_with_queue P prompt conversation_id w =
  let (x, w1) :=
    bedrock_invoke_model P MODEL_ID "application/json" "application/json"
                         (json_dumps P (request_body prompt)) w in
  match direct_answer P x with
  | inr text => MkRun (inr (MkResult "direct" text)) w1 [inference_call P prompt]
  | inl e =>
      let r := after_failure P prompt conversation_id e w1 in
      MkRun (outcome r) (world r) (inference_call P prompt :: calls r)
  end.
Proof.
  unfold invoke_bedrock_with_queue, after_failure, direct_answer, answer_text,
    inference_call, try_except, bind, perform, lift, ret, raise.
  destruct (bedrock_invoke_model P MODEL_ID _ _ _ w) as [[e|raw] w1]; cbn.
  - destruct (py_in THROTTLING_MARKER (exc_str e)); [|reflexivity].
    rewrite enqueue_request_run.
    destruct (datetime_now_ms P w1) as [timestamp w2]; cbn.
    destruct (sqs_send_message P QUEUE_URL _ queue_attributes w2) as [[e'|[]] w3];
      reflexivity.
  - destruct (json_loads P raw) as [e|response_body]; cbn.
    2: destruct (getitem_str response_body "content") as [e|content]; cbn.
    3: destruct (getitem_0 content) as [e|first]; cbn.
    4: destruct (getitem_str first "text") as [e|text]; cbn; [|reflexivity].
    all: destruct (py_in THROTTLING_MARKER (exc_str e)); [|reflexivity].
    all: rewrite enqueue_request_run.
    all: destruct (datetime_now_ms P w1) as [timestamp w2]; cbn.
    all: destruct (sqs_send_message P QUEUE_URL _ queue_attributes w2)
           as [[e'|[]] w3]; reflexivity.
Qed.

Lemma invoke_calculation_agent_run (query : json) (w : W) :
  invoke_calculation_agent P query w =
  let (x, w1) :=
    lambda_invoke P CALCULATION_FUNCTION "RequestResponse"
                  (json_dumps P (JObject [ ("query", query) ])) w in
  match (match x with inl e => inl e | inr answer => json_loads P answer end) with
  | inr v => MkRun (inr v) w1 [calculation_call P query]
  | inl e =>
      MkRun (inl e) w1
            [calculation_call P query;
             Print ("Calculation agent invocation error: " ++ exc_str e)]
  end.
Proof.
  unfold invoke_calculation_agent, calculation_call, try_except, bind, perform,
    lift, print, ret, raise.
  destruct (lambda_invoke P CALCULATION_FUNCTION _ _ w) as [[e|answer] w1]; cbn;
    [reflexivity|].
  destruct (json_loads P answer) as [e|v]; reflexivity.
Qed.

(** Without a keyword the raw text is the prompt. *)
Lemma route_request_plain (text : string) (conversation_id : json) (w : W) :
  py_in "carbon" (lower text) || py_in "emission" (lower text) = false ->
  route_request P (JString text) conversation_id w =
  invoke_bedrock_with_queue P text conversation_id w.
Proof. intros H. unfold route_request. rewrite H. reflexivity. Qed.

(** With a keyword the calculation runs first and picks the prompt. *)
Lemma route_request_calc (text : string) (conversation_id : json) (w : W) :
  py_in "carbon" (lower text) || py_in "emission" (lower text) = true ->
  route_request P (JString text) conversation_id w =
  let rc := invoke_calculation_agent P (JString text) w in
  let prompt :=
    match outcome rc with
    | inr calc_results => explain_prompt P calc_results
    | inl _ => guidance_prompt text
    end in
  let ri := invoke_bedrock_with_queue P prompt conversation_id (world rc) in
  MkRun (outcome ri) (world ri) (calls rc ++ calls ri).
Proof.
  intros H. unfold route_request. rewrite H.
  unfold bind, try_except, ret.
  destruct (invoke_calculation_agent P (JString text) w) as [[e|v] w1 cs]; cbn;
    rewrite app_nil_r; reflexivity.
Qed.

Lemma respond_run (user_input conversation_id : json) (result : InferenceResult)
    (w : W) :
  respond P user_input conversation_id result w =
  let r := if String.eqb (status result) "direct"
           then store_conversation P conversation_id user_input (response result) w
           else MkRun (inr tt) w [] in
  MkRun (inr (ok_response P result conversation_id)) (world r) (calls r).
Proof.
  unfold respond, bind, ret.
  destruct (String.eqb (status result) "direct"); cbn; [|reflexivity].
  rewrite store_conversation_run.
  destruct (datetime_now_ms P w) as [timestamp w1]; cbn.
  destruct (dynamodb_put_item P TABLE_NAME _ w1) as [x w2]; cbn.
  rewrite app_nil_r. reflexivity.
Qed.

Lemma parse_request_run (event : json) (w : W) :
  parse_request P event w =
  match py_get event "body" (JString "{}") with
  | inl e => MkRun (inl e) w []
  | inr raw =>
      match loads_value P raw with
      | inl e => MkRun (inl e) w []
      | inr body =>
          match py_get body "input" (JString "") with
          | inl e => MkRun (inl e) w []
          | inr user_input =>
              let (fresh, w1) := uuid4 P w in
              match py_get body "conversationId" (JString (str_uuid fresh)) with
              | inl e => MkRun (inl e) w1 [Uuid4]
              | inr conversation_id =>
                  MkRun (inr (user_input, conversation_id)) w1 [Uuid4]
              end
          end
      end
  end.
Proof.
  unfold parse_request, bind, lift, ask, ret, raise.
  destruct (py_get event "body" (JString "{}")) as [e|raw]; cbn; [reflexivity|].
  destruct (loads_value P raw) as [e|body]; cbn; [reflexivity|].
  destruct (py_get body "input" (JString "")) as [e|user_input]; cbn;
    [reflexivity|].
  destruct (uuid4 P w) as [fresh w1]; cbn.
  destruct (py_get body "conversationId" _) as [e|conversation_id]; reflexivity.
Qed.

(** A body that decodes to an object always yields a request. *)
Lemma parse_request_object (event raw : json) (fields : list (string * json))
    (w : W) :
  py_get event "body" (JString "{}") = inr raw ->
  loads_value P raw = inr (JObject fields) ->
  parse_request P event w =
  let (fresh, w1) := uuid4 P w in
  MkRun (inr (lookup_or "input" fields (JString ""),
              lookup_or "conversationId" fields (JString (str_uuid fresh))))
        w1 [Uuid4].
Proof.
  intros Hraw Hbody. rewrite parse_request_run, Hraw, Hbody. reflexivity.
Qed.

(** The whole handler, block by block: every exception ends in the
    500 response, a falsy input in the 400 response, and an inference
    result in the 200 response. *)
Lemma lambda_handler_run (event : json) (w : W) :
  lambda_handler P event w =
  let r0 := parse_request P event w in
  match outcome r0 with
  | inl e => MkRun (inr (error_response P e)) (world r0) (calls r0)
  | inr (user_input, conversation_id) =>
      if truthy user_input then
        let r1 := route_request P user_input conversation_id (world r0) in
        match outcome r1 with
        | inl e =>
            MkRun (inr (error_response P e)) (world r1) (calls r0 ++ calls r1)
        | inr result =>
            let r2 := respond P user_input conversation_id result (world r1) in
            MkRun (inr (ok_response P result conversation_id)) (world r2)
                  (calls r0 ++ calls r1 ++ calls r2)
        end
      else MkRun (inr (bad_request_response P)) (world r0) (calls r0)
  end.
Proof.
  unfold lambda_handler, try_except, bind, ret.
  destruct (parse_request P event w) as [[e|[user_input conversation_id]] w0 c0];
    cbn; [rewrite app_nil_r; reflexivity|].
  destruct (truthy user_input); cbn; [|rewrite app_nil_r; reflexivity].
  destruct (route_request P user_input conversation_id w0) as [[e|result] w1 c1];
    cbn; [rewrite !app_nil_r; reflexivity|].
  rewrite respond_run. cbn. reflexivity.
Qed.

(** *** Which calls each block makes *)

Section Footprints.

Variable kind : Call -> bool.

Lemma parse_request_calls (event : json) (w : W) :
  kind Uuid4 = false ->
  filter kind (calls (parse_request P event w)) = [].
Proof.
  intros Hu. rewrite parse_request_run.
  destruct (py_get event "body" (JString "{}")) as [e|raw]; [reflexivity|].
  destruct (loads_value P raw) as [e|body]; [reflexivity|].
  destruct (py_get body "input" (JString "")) as [e|user_input]; [reflexivity|].
  destruct (uuid4 P w) as [fresh w1].
  destruct (py_get body "conversationId" _) as [e|c]; cbn; rewrite Hu; reflexivity.
Qed.

Hypothesis kind_now : kind DatetimeNow = false.
Hypothesis kind_print : forall line, kind (Print line) = false.

Lemma invoke_calculation_agent_calls (query : json) (w : W) :
  filter kind (calls (invoke_calculation_agent P query w)) =
  filter kind [calculation_call P query].
Proof.
  rewrite invoke_calculation_agent_run.
  destruct (lambda_invoke P CALCULATION_FUNCTION _ _ w) as [[e|answer] w1].
  2: destruct (json_loads P answer) as [e|v]; [|reflexivity].
  all: cbn; rewrite kind_print; reflexivity.
Qed.

Lemma store_conversation_calls (conversation_id user_input answer : json) (w : W) :
  (forall table item, kind (DynamoPutItem table item) = false) ->
  filter kind (calls (store_conversation P conversation_id user_input answer w)) = [].
Proof.
  intros Hput. rewrite store_conversation_run.
  destruct (datetime_now_ms P w) as [timestamp w1]; cbn.
  destruct (dynamodb_put_item P TABLE_NAME _ w1) as [[e|u] w2]; cbn;
    rewrite kind_now, Hput, ?kind_print; reflexivity.
Qed.

Lemma respond_calls (user_input conversation_id : json)
    (result : InferenceResult) (w : W) :
  (forall table item, kind (DynamoPutItem table item) = false) ->
  filter kind (calls (respond P user_input conversation_id result w)) = [].
Proof.
  intros Hput. rewrite respond_run.
  destruct (String.eqb (status result) "direct"); cbn; [|reflexivity].
  apply store_conversation_calls, Hput.
Qed.

Hypothesis kind_publish :
  forall url message attributes, kind (SqsSendMessage url message attributes) = false.

Lemma after_failure_calls (prompt : string) (conversation_id : json)
    (e : PyExc) (w : W) :
  filter kind (calls (after_failure P prompt conversation_id e w)) = [].
Proof.
  unfold after_failure.
  destruct (py_in THROTTLING_MARKER (exc_str e)); [|reflexivity].
  rewrite enqueue_request_run.
  destruct (datetime_now_ms P w) as [timestamp w1]; cbn.
  destruct (sqs_send_message P QUEUE_URL _ queue_attributes w1) as [[e'|u] w2];
    cbn; rewrite kind_now, kind_publish, ?kind_print; reflexivity.
Qed.

Lemma invoke_bedrock_with_queue_calls (prompt : string) (conversation_id : json)
    (w : W) :
  filter kind (calls (invoke_bedrock_with_queue P prompt conversation_id w)) =
  filter kind [inference_call P prompt].
Proof.
  rewrite invoke_bedrock_with_queue_run.
  destruct (bedrock_invoke_model P MODEL_ID _ _ _ w) as [x w1].
  destruct (direct_answer P x) as [e|text]; [|reflexivity].
  cbn [calls filter]. rewrite after_failure_calls. reflexivity.
Qed.

(** The calculation and inference calls of [route_request], in order. *)
Lemma route_request_calls (user_input conversation_id : json) (w : W) :
  exists prompt,
    filter kind (calls (route_request P user_input conversation_id w)) =
    filter kind
      match user_input with
      | JString text =>
          if py_in "carbon" (lower text) || py_in "emission" (lower text)
          then [calculation_call P user_input; inference_call P prompt]
          else [inference_call P text]
      | _ => []
      end.
Proof.
  destruct user_input as [| | | |text| |]; try (exists ""; reflexivity).
  destruct (py_in "carbon" (lower text) || py_in "emission" (lower text)) eqn:K.
  - rewrite (route_request_calc _ _ _ K). cbn zeta. cbn [calls].
    eexists. rewrite filter_app, invoke_calculation_agent_calls,
      invoke_bedrock_with_queue_calls, <- filter_app. reflexivity.
  - rewrite (route_request_plain _ _ _ K). exists "".
    apply invoke_bedrock_with_queue_calls.
Qed.

End Footprints.

Lemma route_request_no_put_item (user_input conversation_id : json) (w : W) :
  filter is_put_item (calls (route_request P user_input conversation_id w)) = [].
Proof.
  destruct (route_request_calls is_put_item) with (user_input := user_input)
    (conversation_id := conversation_id) (w := w) as [prompt H]; try reflexivity.
  rewrite H. destruct user_input; try reflexivity.
  destruct (py_in "carbon" (lower s) || py_in "emission" (lower s)); reflexivity.
Qed.

End Runs.

(** ** The throttle fallback *)

(** C1.  When the direct attempt ends in an exception [e], raised by
    the Bedrock call or while its answer is decoded: if [str(e)]
    contains ["ThrottlingException"], exactly one SQS publish is
    attempted, with the prompt and the conversation identifier; when it
    succeeds the result has status [queued] and the fixed message, when
    it fails [e] itself is raised again.  Without the marker [e] is
    raised again and nothing is published.  An exception that leaves the
    routing step reaches the handler's [except] clause and becomes the
    500 response carrying its text. *)
Theorem throttle_fallback {W} (P : Platform W) (prompt : string)
    (conversation_id : json) (w w1 : W) (x : PyExc + string) (e : PyExc) :
  bedrock_invoke_model P "anthropic.claude-3-5-sonnet-20240620-v1:0"
    "application/json" "application/json"
    (json_dumps P
       (JObject
          [ ("anthropic_version", JString "bedrock-2023-05-31");
            ("max_tokens", JInt 500);
            ("messages",
             JArray
               [ JObject
                   [ ("role", JString "user");
                     ("content",
                      JArray [ JObject [ ("type", JString "text");
                                         ("text", JString prompt) ] ]) ] ]) ])) w
  = (x, w1) ->
  direct_answer P x = inl e ->
  let r := invoke_bedrock_with_queue P prompt conversation_id w in
  let timestamp := fst (datetime_now_ms P w1) in
  let w2 := snd (datetime_now_ms P w1) in
  let message :=
    json_dumps P
      (JObject [ ("prompt", JString prompt);
                ("conversation_id", conversation_id);
                ("timestamp", JString (str_int timestamp)) ]) in
  let url :=
    "https://sqs.us-east-1.amazonaws.com/[your-account-id]/carbon-bedrock-queue" in
  (py_in "ThrottlingException" (exc_str e) = true ->
   calls_of is_publish r
   = [SqsSendMessage url message [ ("RequestType", ("String", "bedrock_inference")) ]]
   /\ match fst (sqs_send_message P url message
                    [ ("RequestType", ("String", "bedrock_inference")) ] w2) with
      | inr _ =>
          outcome r
          = inr (MkResult "queued"
                   (JString "Your request has been queued due to high demand. You'll receive a response shortly via our notification system. In the meantime, here's some general guidance: Carbon emissions from electricity usage depend on your region's energy mix and the time of consumption. Consider implementing energy efficiency measures and shifting usage to off-peak hours when possible."))
      | inl _ => outcome r = inl e
      end)
  /\ (py_in "ThrottlingException" (exc_str e) = false ->
      calls_of is_publish r = [] /\ outcome r = inl e)
  /\ (forall (event user_input : json) (w0 : W) (e' : PyExc),
        outcome (parse_request P event w0) = inr (user_input, conversation_id) ->
        truthy user_input = true ->
        outcome (route_request P user_input conversation_id
                               (world (parse_request P event w0))) = inl e' ->
        outcome (lambda_handler P event w0)
        = inr (MkResponse 500
                 [ ("Content-Type", "application/json") ]
                 (json_dumps P (JObject [ ("error", JString (exc_str e')) ])))).
Proof.
  intros Hcall Hfail r timestamp w2 message url.
  subst r timestamp w2 message url.
  change (bedrock_invoke_model P MODEL_ID "application/json" "application/json"
            (json_dumps P (request_body prompt)) w = (x, w1)) in Hcall.
  fold THROTTLING_MARKER QUEUE_URL queue_attributes.
  fold (queue_message prompt conversation_id
                      (str_int (fst (datetime_now_ms P w1)))).
  unfold calls_of. rewrite invoke_bedrock_with_queue_run, Hcall, Hfail.
  unfold after_failure. split; [|split].
  - intros Hmarker. rewrite Hmarker, enqueue_request_run.
    destruct (datetime_now_ms P w1) as [timestamp w2]; cbn [fst snd].
    cbv beta iota zeta.
    destruct (sqs_send_message P QUEUE_URL _ queue_attributes w2) as [[e'|u] w3];
      split; reflexivity.
  - intros Hmarker. rewrite Hmarker. split; reflexivity.
  - intros event user_input w0 e' Hparse Htruthy Hroute.
    rewrite lambda_handler_run. cbv zeta.
    rewrite Hparse, Htruthy, Hroute. reflexivity.
Qed.

(** The throttled model with the queue down: one publish, then the
    throttling exception itself. *)
Lemma throttle_fallback_witness :
  bedrock_invoke_model scripted MODEL_ID "application/json" "application/json"
    (json_dumps scripted (request_body "Hello")) overloaded_queue_down
  = (inl Throttled, overloaded_queue_down)
  /\ direct_answer scripted (inl Throttled) = inl Throttled
  /\ py_in "ThrottlingException" (exc_str Throttled) = true
  /\ length (calls_of is_publish
               (invoke_bedrock_with_queue scripted "Hello" (JString "c-1")
                                          overloaded_queue_down)) = 1
  /\ outcome (invoke_bedrock_with_queue scripted "Hello" (JString "c-1")
                                        overloaded_queue_down) = inl Throttled.
Proof.
  split; [reflexivity|]. split; [reflexivity|]. split; [reflexivity|].
  destruct (throttle_fallback scripted "Hello" (JString "c-1")
              overloaded_queue_down overloaded_queue_down (inl Throttled)
              Throttled eq_refl eq_refl)
    as [Hthrottled _].
  destruct (Hthrottled eq_refl) as [Hcalls Hout].
  split; [rewrite Hcalls; reflexivity | exact Hout].
Defined.

(** ** Persistence *)

Lemma invoke_bedrock_with_queue_status {W} (P : Platform W) (prompt : string)
    (conversation_id : json) (w : W) (result : InferenceResult) :
  outcome (invoke_bedrock_with_queue P prompt conversation_id w) = inr result ->
  (exists text, result = MkResult "direct" text) \/ result = queued_result.
Proof.
  rewrite invoke_bedrock_with_queue_run.
  destruct (bedrock_invoke_model P MODEL_ID _ _ _ w) as [x w1].
  destruct (direct_answer P x) as [e|text];
    [|cbn; intros [= <-]; left; eexists; reflexivity].
  cbn [outcome]. unfold after_failure.
  destruct (py_in THROTTLING_MARKER (exc_str e)); [|discriminate].
  cbn [outcome].
  destruct (outcome (enqueue_request P prompt conversation_id w1))
    as [e'|[|]]; try discriminate.
  intros [= <-]. right. reflexivity.
Qed.

Lemma route_request_status {W} (P : Platform W) (user_input conversation_id : json)
    (w : W) (result : InferenceResult) :
  outcome (route_request P user_input conversation_id w) = inr result ->
  (exists text, result = MkResult "direct" text) \/ result = queued_result.
Proof.
  destruct user_input as [| | | |text| |]; try discriminate.
  destruct (py_in "carbon" (lower text) || py_in "emission" (lower text)) eqn:K.
  - rewrite (route_request_calc _ _ _ _ K). cbn zeta. cbn [outcome].
    apply invoke_bedrock_with_queue_status.
  - rewrite (route_request_plain _ _ _ _ K).
    apply invoke_bedrock_with_queue_status.
Qed.

(** C2.  Once the inference step has returned [result], the handler
    writes one item to the table [carbon-assistant-data], holding the
    conversation identifier, the clock's timestamp, the user input, the
    response text and the tag [conversation], exactly when the status is
    [direct]; on [queued] it writes nothing; these are the only two
    statuses; and the response text written is the one returned. *)
Theorem store_iff_direct {W} (P : Platform W) (event : json) (w : W)
    (user_input conversation_id : json) (result : InferenceResult) :
  let r0 := parse_request P event w in
  outcome r0 = inr (user_input, conversation_id) ->
  truthy user_input = true ->
  let r1 := route_request P user_input conversation_id (world r0) in
  outcome r1 = inr result ->
  let r := lambda_handler P event w in
  let timestamp := str_int (fst (datetime_now_ms P (world r1))) in
  let item :=
    [ ("conversationId", conversation_id);
      ("timestamp", JString timestamp);
      ("userInput", user_input);
      ("response", response result);
      ("type", JString "conversation") ] in
  (status result = "direct" <->
   calls_of is_put_item r = [DynamoPutItem "carbon-assistant-data" item])
  /\ (status result = "queued" -> calls_of is_put_item r = [])
  /\ (status result = "direct" \/ status result = "queued")
  /\ outcome r
     = inr (MkResponse 200
             [ ("Content-Type", "application/json");
               ("Access-Control-Allow-Origin", "*") ]
             (json_dumps P (JObject [ ("response", response result);
                                     ("conversationId", conversation_id);
                                     ("status", JString (status result)) ]))).
Proof.
  intros r0 Hparse Htruthy r1 Hroute r timestamp item.
  subst r0 r1 r timestamp item.
  set (w1 := world (route_request P user_input conversation_id
                                  (world (parse_request P event w)))) in *.
  fold (conversation_item conversation_id (str_int (fst (datetime_now_ms P w1)))
                          user_input (response result)).
  fold TABLE_NAME. fold (ok_response P result conversation_id).
  set (item := conversation_item _ _ _ _).
  assert (Hcalls : calls_of is_put_item (lambda_handler P event w) =
                   if String.eqb (status result) "direct"
                   then [DynamoPutItem TABLE_NAME item] else []).
  { unfold calls_of. rewrite lambda_handler_run. cbn zeta.
    rewrite Hparse, Htruthy, Hroute. cbn [calls].
    rewrite !filter_app, parse_request_calls, route_request_no_put_item
      by reflexivity.
    cbn [app]. rewrite respond_run. fold w1.
    destruct (String.eqb (status result) "direct"); [|reflexivity].
    cbn zeta. rewrite store_conversation_run. subst item.
    destruct (datetime_now_ms P w1) as [t w2]; cbn.
    destruct (dynamodb_put_item P TABLE_NAME _ w2) as [[e|u] w3]; reflexivity. }
  assert (Hout : outcome (lambda_handler P event w)
                 = inr (ok_response P result conversation_id)).
  { rewrite lambda_handler_run. cbn zeta.
    rewrite Hparse, Htruthy, Hroute. reflexivity. }
  rewrite Hcalls, Hout.
  destruct (route_request_status _ _ _ _ _ Hroute) as [[text ->] | ->];
    cbn [status queued_result String.eqb Ascii.eqb Bool.eqb andb].
  - repeat split; auto; discriminate.
  - repeat split; auto; discriminate.
Qed.

(** A greeting answered directly: one item is written. *)
Lemma store_iff_direct_witness :
  outcome (parse_request scripted hello_event calm)
  = inr (JString "Hello", JString (str_uuid 42))
  /\ truthy (JString "Hello") = true
  /\ outcome (route_request scripted (JString "Hello") (JString (str_uuid 42))
                            (parsed calm))
     = inr (MkResult "direct" (JString "Hi there"))
  /\ calls_of is_put_item (lambda_handler scripted hello_event calm)
     = [DynamoPutItem TABLE_NAME
          (conversation_item (JString (str_uuid 42)) "1700000000000"
                             (JString "Hello") (JString "Hi there"))].
Proof.
  split; [reflexivity|]. split; [reflexivity|]. split; [reflexivity|].
  apply (store_iff_direct scripted hello_event calm (JString "Hello")
           (JString (str_uuid 42)) (MkResult "direct" (JString "Hi there"))
           eq_refl eq_refl eq_refl).
  reflexivity.
Defined.

(** ** Routing *)

(** The calculation and inference calls of a whole request are those of
    its routing step. *)
Lemma lambda_handler_routing_calls {W} (P : Platform W) (event : json) (w : W)
    (user_input conversation_id : json) :
  outcome (parse_request P event w) = inr (user_input, conversation_id) ->
  truthy user_input = true ->
  forall kind : Call -> bool,
    kind Uuid4 = false -> kind DatetimeNow = false ->
    (forall line, kind (Print line) = false) ->
    (forall table item, kind (DynamoPutItem table item) = false) ->
    calls_of kind (lambda_handler P event w) =
    calls_of kind (route_request P user_input conversation_id
                                 (world (parse_request P event w))).
Proof.
  intros Hparse Htruthy kind Hu Hn Hp Hd.
  unfold calls_of. rewrite lambda_handler_run. cbn zeta.
  rewrite Hparse, Htruthy.
  destruct (outcome (route_request P user_input conversation_id _)); cbn [calls].
  - rewrite filter_app, parse_request_calls by assumption. reflexivity.
  - rewrite !filter_app, parse_request_calls, respond_calls by assumption.
    cbn [app]. apply app_nil_r.
Qed.



(** ** Degradation of the calculation step *)

(** C4.  On the calculation path, when [invoke_calculation_agent]
    raises, the handler still makes exactly one inference call; its
    prompt is "Provide general guidance about carbon emissions for
    <text>. Keep it brief.", which contains the user's text; and the
    response is the one built from that inference run alone (the 200
    response of its result, or the 500 response of its exception), so
    the calculation exception does not reach it. *)
Theorem calculation_failure_degrades {W} (P : Platform W) (event : json) (w : W)
    (text : string) (conversation_id : json) (e : PyExc) :
  let r0 := parse_request P event w in
  outcome r0 = inr (JString text, conversation_id) ->
  py_in "carbon" (lower text) || py_in "emission" (lower text) = true ->
  let rc := invoke_calculation_agent P (JString text) (world r0) in
  outcome rc = inl e ->
  let prompt :=
    "Provide general guidance about carbon emissions for " ++ text
    ++ ". Keep it brief." in
  let ri := invoke_bedrock_with_queue P prompt conversation_id (world rc) in
  let r := lambda_handler P event w in
  calls_of is_inference r
  = [BedrockInvokeModel "anthropic.claude-3-5-sonnet-20240620-v1:0"
       "application/json" "application/json"
       (json_dumps P
          (JObject
             [ ("anthropic_version", JString "bedrock-2023-05-31");
               ("max_tokens", JInt 500);
               ("messages",
                JArray
                  [ JObject
                      [ ("role", JString "user");
                        ("content",
                         JArray [ JObject [ ("type", JString "text");
                                            ("text", JString prompt) ] ]) ] ]) ]))]
  /\ py_in text prompt = true
  /\ outcome r
     = inr match outcome ri with
           | inr result =>
               MkResponse 200
                 [ ("Content-Type", "application/json");
                   ("Access-Control-Allow-Origin", "*") ]
                 (json_dumps P (JObject [ ("response", response result);
                                         ("conversationId", conversation_id);
                                         ("status", JString (status result)) ]))
           | inl e' =>
               MkResponse 500
                 [ ("Content-Type", "application/json") ]
                 (json_dumps P (JObject [ ("error", JString (exc_str e')) ]))
           end.
Proof.
  intros r0 Hparse K rc Hcalc prompt ri r. subst r0 rc ri r.
  assert (Hprompt : prompt = guidance_prompt text) by reflexivity.
  clearbody prompt. subst prompt.
  assert (Htruthy : truthy (JString text) = true).
  { destruct text; [discriminate K | reflexivity]. }
  split; [|split].
  - rewrite (lambda_handler_routing_calls P event w _ _ Hparse Htruthy)
      by reflexivity.
    unfold calls_of. rewrite (route_request_calc _ _ _ _ K). cbn zeta.
    rewrite Hcalc. cbn [calls].
    rewrite filter_app, invoke_calculation_agent_calls,
      invoke_bedrock_with_queue_calls by reflexivity.
    reflexivity.
  - apply guidance_prompt_mentions.
  - rewrite lambda_handler_run. cbn zeta. rewrite Hparse, Htruthy.
    rewrite (route_request_calc _ _ _ _ K). cbn zeta. rewrite Hcalc.
    cbn [outcome].
    destruct (outcome (invoke_bedrock_with_queue P (guidance_prompt text) _ _));
      reflexivity.
Qed.

(** The commute question with the calculation function down. *)
Lemma calculation_failure_degrades_witness :
  outcome (parse_request scripted commute_event calc_down)
  = inr (JString commute_question, JString (str_uuid 42))
  /\ py_in "carbon" (lower commute_question)
     || py_in "emission" (lower commute_question) = true
  /\ outcome (invoke_calculation_agent scripted (JString commute_question)
                                       (parsed calc_down)) = inl ServiceDown
  /\ calls_of is_inference (lambda_handler scripted commute_event calc_down)
     = [inference_call scripted (guidance_prompt commute_question)].
Proof.
  split; [reflexivity|]. split; [reflexivity|]. split; [reflexivity|].
  apply (calculation_failure_degrades scripted commute_event calc_down
           commute_question (JString (str_uuid 42)) ServiceDown
           eq_refl eq_refl eq_refl).
Defined.

(** ** Validation *)

(** C5.  When the decoded body has no [input], or an empty one, the
    handler returns the 400 response with its error message, and the
    only call it has made is the UUID draw: no Lambda, Bedrock, SQS or
    DynamoDB call. *)
Theorem empty_input_rejected {W} (P : Platform W) (event raw : json)
    (fields : list (string * json)) (w : W) :
  py_get event "body" (JString "{}") = inr raw ->
  loads_value P raw = inr (JObject fields) ->
  (assoc "input" fields = None
   \/ exists v, assoc "input" fields = Some v /\ truthy v = false) ->
  let r := lambda_handler P event w in
  outcome r = inr (bad_request_response P)
  /\ statusCode (bad_request_response P) = 400%Z
  /\ body (bad_request_response P)
     = json_dumps P (JObject [ ("error", JString "Input is required") ])
  /\ calls r = [Uuid4]
  /\ calls_of is_collaborator r = [].
Proof.
  intros Hraw Hbody Hinput r. subst r.
  assert (Hfalsy : truthy (lookup_or "input" fields (JString "")) = false).
  { unfold lookup_or. destruct Hinput as [-> | (v & -> & Hv)];
      [reflexivity | exact Hv]. }
  unfold calls_of. rewrite lambda_handler_run. cbn zeta.
  rewrite (parse_request_object P event raw fields w Hraw Hbody).
  destruct (uuid4 P w) as [fresh w1]. cbn [outcome calls world].
  rewrite Hfalsy. repeat split.
Qed.

(** An explicit empty input. *)
Lemma empty_input_rejected_witness :
  py_get (event_with (JObject [ ("input", JString "") ])) "body" (JString "{}")
  = inr (JString (scripted_dumps (JObject [ ("input", JString "") ])))
  /\ loads_value scripted
       (JString (scripted_dumps (JObject [ ("input", JString "") ])))
     = inr (JObject [ ("input", JString "") ])
  /\ (exists v, assoc "input" [ ("input", JString "") ] = Some v
                /\ truthy v = false)
  /\ outcome (lambda_handler scripted
                (event_with (JObject [ ("input", JString "") ])) calm)
     = inr (bad_request_response scripted).
Proof.
  split; [reflexivity|]. split; [reflexivity|].
  split; [exists (JString ""); split; reflexivity|].
  apply (empty_input_rejected scripted
           (event_with (JObject [ ("input", JString "") ]))
           (JString (scripted_dumps (JObject [ ("input", JString "") ])))
           [ ("input", JString "") ] calm eq_refl eq_refl).
  right. exists (JString ""). split; reflexivity.
Defined.

(** ** The conversation identifier *)

(** Only [parse_request] draws a UUID. *)
Lemma lambda_handler_uuid4_calls {W} (P : Platform W) (event : json) (w : W) :
  calls_of is_uuid4 (lambda_handler P event w) =
  calls_of is_uuid4 (parse_request P event w).
Proof.
  unfold calls_of. rewrite lambda_handler_run. cbn zeta.
  destruct (outcome (parse_request P event w)) as [e|[user_input conversation_id]];
    [reflexivity|].
  destruct (truthy user_input); [|reflexivity].
  destruct (route_request_calls P is_uuid4) with
    (user_input := user_input) (conversation_id := conversation_id)
    (w := world (parse_request P event w)) as [prompt Hroute]; try reflexivity.
  assert (Hquiet : filter is_uuid4
                     (calls (route_request P user_input conversation_id
                               (world (parse_request P event w)))) = []).
  { rewrite Hroute. destruct user_input as [| | | |text| |]; try reflexivity.
    destruct (py_in "carbon" (lower text) || py_in "emission" (lower text));
      reflexivity. }
  destruct (outcome (route_request P user_input conversation_id _));
    cbn [calls]; rewrite !filter_app, Hquiet, ?respond_calls by reflexivity;
    rewrite ?app_nil_r; reflexivity.
Qed.

(** A 200 response carries the identifier [parse_request] chose. *)
Lemma success_carries_parsed_id {W} (P : Platform W) (event raw : json)
    (fields : list (string * json)) (w : W) (resp : HttpResponse) :
  py_get event "body" (JString "{}") = inr raw ->
  loads_value P raw = inr (JObject fields) ->
  outcome (lambda_handler P event w) = inr resp ->
  statusCode resp = 200%Z ->
  exists result,
    resp = ok_response P result
             (lookup_or "conversationId" fields
                        (JString (str_uuid (fst (uuid4 P w))))).
Proof.
  intros Hraw Hbody. rewrite lambda_handler_run. cbn zeta.
  rewrite (parse_request_object P event raw fields w Hraw Hbody).
  destruct (uuid4 P w) as [fresh w1]. cbn [outcome calls world fst].
  destruct (truthy _); [|intros [= <-]; discriminate].
  destruct (outcome (route_request P _ _ w1)) as [e|result]; cbn [outcome].
  - intros [= <-]; discriminate.
  - intros [= <-] _. exists result. reflexivity.
Qed.

(** C6.  On a 200 response: when the body has no [conversationId] key
    the [conversationId] of the response body is the text of the UUID
    drawn in this request, which is not empty; when the key is present
    it is the key's value.  The body is the JSON text of [response],
    [conversationId] and [status], in this order. *)
Theorem conversation_id_fresh_or_echoed {W} (P : Platform W) (event raw : json)
    (fields : list (string * json)) (w : W) (resp : HttpResponse) :
  py_get event "body" (JString "{}") = inr raw ->
  loads_value P raw = inr (JObject fields) ->
  outcome (lambda_handler P event w) = inr resp ->
  statusCode resp = 200%Z ->
  (assoc "conversationId" fields = None ->
   let fresh := str_uuid (fst (uuid4 P w)) in
   fresh <> ""
   /\ calls_of is_uuid4 (lambda_handler P event w) = [Uuid4]
   /\ exists result,
        resp
        = MkResponse 200
            [ ("Content-Type", "application/json");
              ("Access-Control-Allow-Origin", "*") ]
            (json_dumps P (JObject [ ("response", response result);
                                    ("conversationId", JString fresh);
                                    ("status", JString (status result)) ])))
  /\ (forall v, assoc "conversationId" fields = Some v ->
      exists result,
        resp
        = MkResponse 200
            [ ("Content-Type", "application/json");
              ("Access-Control-Allow-Origin", "*") ]
            (json_dumps P (JObject [ ("response", response result);
                                    ("conversationId", v);
                                    ("status", JString (status result)) ]))).
Proof.
  intros Hraw Hbody Hout Hcode.
  destruct (success_carries_parsed_id P event raw fields w resp
              Hraw Hbody Hout Hcode) as [result Hresp].
  unfold lookup_or in Hresp. split.
  - intros Hnone fresh. rewrite Hnone in Hresp.
    split; [apply str_uuid_nonempty|]. split; [|exists result; exact Hresp].
    rewrite lambda_handler_uuid4_calls.
    unfold calls_of. rewrite (parse_request_object P event raw fields w Hraw Hbody).
    destruct (uuid4 P w) as [u w1]. reflexivity.
  - intros v Hsome. rewrite Hsome in Hresp. exists result. exact Hresp.
Qed.

(** A greeting without identifier gets a fresh one; with ["c-1"] it
    gets ["c-1"] back. *)
Lemma conversation_id_fresh_or_echoed_witness :
  (py_get hello_event "body" (JString "{}")
   = inr (JString (scripted_dumps (JObject [ ("input", JString "Hello") ])))
   /\ loads_value scripted
        (JString (scripted_dumps (JObject [ ("input", JString "Hello") ])))
      = inr (JObject [ ("input", JString "Hello") ])
   /\ outcome (lambda_handler scripted hello_event calm)
      = inr (ok_response scripted (MkResult "direct" (JString "Hi there"))
                         (JString "00000000-0000-0000-0000-00000000002a"))
   /\ exists result,
        ok_response scripted (MkResult "direct" (JString "Hi there"))
                    (JString "00000000-0000-0000-0000-00000000002a")
        = ok_response scripted result (JString (str_uuid 42)))
  /\ (outcome (lambda_handler scripted (hello_event_in "c-1") calm)
      = inr (ok_response scripted (MkResult "direct" (JString "Hi there"))
                         (JString "c-1"))
      /\ exists result,
           ok_response scripted (MkResult "direct" (JString "Hi there"))
                       (JString "c-1")
           = ok_response scripted result (JString "c-1")).
Proof.
  split.
  - split; [reflexivity|]. split; [reflexivity|]. split; [reflexivity|].
    destruct (conversation_id_fresh_or_echoed scripted hello_event _
                [ ("input", JString "Hello") ] calm _ eq_refl eq_refl eq_refl
                eq_refl) as [Hfresh _].
    destruct (Hfresh eq_refl) as (_ & _ & Hresp). exact Hresp.
  - split; [reflexivity|].
    destruct (conversation_id_fresh_or_echoed scripted (hello_event_in "c-1") _
                [ ("input", JString "Hello"); ("conversationId", JString "c-1") ]
                calm _ eq_refl eq_refl eq_refl eq_refl) as [_ Hecho].
    exact (Hecho (JString "c-1") eq_refl).
Defined.

(** ** Best-effort persistence *)

(** The response does not depend on the table: with any other table
    behind the platform the handler returns the same response. *)
Lemma response_independent_of_table {W} (P : Platform W)
    (put : string -> list (string * json) -> W -> (PyExc + unit) * W)
    (event : json) (w : W) :
  outcome (lambda_handler (with_table P put) event w) =
  outcome (lambda_handler P event w).
Proof.
  rewrite !lambda_handler_run. cbn zeta.
  change (parse_request (with_table P put) event w)
    with (parse_request P event w).
  destruct (parse_request P event w) as [[e|[user_input conversation_id]] w0 c0];
    cbn [outcome world]; [reflexivity|].
  destruct (truthy user_input); [|reflexivity].
  change (route_request (with_table P put) user_input conversation_id w0)
    with (route_request P user_input conversation_id w0).
  destruct (outcome (route_request P user_input conversation_id w0));
    reflexivity.
Qed.

(** C7.  After a [direct] inference result, a [put_item] that raises is
    logged and goes no further: the handler returns the 200 response with
    the result's text, the conversation identifier and the status, the
    response it returns when the write succeeds. *)
Theorem store_failure_absorbed {W} (P : Platform W) (event : json) (w w3 : W)
    (user_input conversation_id : json) (result : InferenceResult) (e : PyExc) :
  let r0 := parse_request P event w in
  outcome r0 = inr (user_input, conversation_id) ->
  truthy user_input = true ->
  let r1 := route_request P user_input conversation_id (world r0) in
  outcome r1 = inr result ->
  status result = "direct" ->
  let timestamp := str_int (fst (datetime_now_ms P (world r1))) in
  let item :=
    conversation_item conversation_id timestamp user_input (response result) in
  dynamodb_put_item P TABLE_NAME item (snd (datetime_now_ms P (world r1)))
  = (inl e, w3) ->
  let r := lambda_handler P event w in
  outcome r = inr (ok_response P result conversation_id)
  /\ statusCode (ok_response P result conversation_id) = 200%Z
  /\ (exists before,
        calls r = (before ++ [DatetimeNow; DynamoPutItem TABLE_NAME item;
                              Print ("DynamoDB error: " ++ exc_str e)])%list)
  /\ outcome r
     = outcome (lambda_handler (with_table P (fun _ _ w' => (inr tt, w')))
                               event w).
Proof.
  intros r0 Hparse Htruthy r1 Hroute Hdirect timestamp item Hput r.
  subst r0 r1 r timestamp item.
  rewrite response_independent_of_table.
  rewrite lambda_handler_run. cbn zeta.
  rewrite Hparse, Htruthy, Hroute. cbn [outcome calls].
  split; [reflexivity|]. split; [reflexivity|]. split; [|reflexivity].
  rewrite respond_run, Hdirect. cbn [String.eqb Ascii.eqb Bool.eqb andb].
  cbn zeta. rewrite store_conversation_run.
  set (w1 := world (route_request P user_input conversation_id _)) in *.
  destruct (datetime_now_ms P w1) as [t w2]. cbn [fst snd] in Hput.
  cbv beta iota zeta. rewrite Hput. cbn [calls].
  eexists. rewrite app_assoc. reflexivity.
Qed.

(** A greeting answered directly while the table is down. *)
Lemma store_failure_absorbed_witness :
  outcome (parse_request scripted hello_event table_down)
  = inr (JString "Hello", JString (str_uuid 42))
  /\ truthy (JString "Hello") = true
  /\ outcome (route_request scripted (JString "Hello") (JString (str_uuid 42))
                            (parsed table_down))
     = inr (MkResult "direct" (JString "Hi there"))
  /\ dynamodb_put_item scripted TABLE_NAME
       (conversation_item (JString (str_uuid 42)) "1700000000000"
                          (JString "Hello") (JString "Hi there"))
       (snd (datetime_now_ms scripted (parsed table_down)))
     = (inl ServiceDown, snd (datetime_now_ms scripted (parsed table_down)))
  /\ outcome (lambda_handler scripted hello_event table_down)
     = inr (ok_response scripted (MkResult "direct" (JString "Hi there"))
                        (JString (str_uuid 42))).
Proof.
  split; [reflexivity|]. split; [reflexivity|]. split; [reflexivity|].
  split; [reflexivity|].
  apply (store_failure_absorbed scripted hello_event table_down
           (snd (datetime_now_ms scripted (parsed table_down)))
           (JString "Hello") (JString (str_uuid 42))
           (MkResult "direct" (JString "Hi there")) ServiceDown
           eq_refl eq_refl eq_refl eq_refl eq_refl).
Defined.

(** ** The three responses *)

(** The handler never raises, and answers with one of its three
    response forms. *)
Lemma lambda_handler_shape {W} (P : Platform W) (event : json) (w : W) :
  exists resp,
    outcome (lambda_handler P event w) = inr resp
    /\ (resp = bad_request_response P
        \/ (exists result conversation_id,
              resp = ok_response P result conversation_id)
        \/ exists e, resp = error_response P e).
Proof.
  rewrite lambda_handler_run. cbn zeta.
  destruct (outcome (parse_request P event w))
    as [e|[user_input conversation_id]].
  - eexists. split; [reflexivity|]. right. right. exists e. reflexivity.
  - destruct (truthy user_input).
    + destruct (outcome (route_request P user_input conversation_id _))
        as [e|result].
      * eexists. split; [reflexivity|]. right. right. exists e. reflexivity.
      * eexists. split; [reflexivity|]. right. left.
        exists result, conversation_id. reflexivity.
    + eexists. split; [reflexivity|]. left. reflexivity.
Qed.

(** C8.  The response carries [Access-Control-Allow-Origin: *] exactly
    when its status code is 200; the 400 and 500 responses have no such
    header. *)
Theorem cors_iff_success {W} (P : Platform W) (event : json) (w : W)
    (resp : HttpResponse) :
  outcome (lambda_handler P event w) = inr resp ->
  (assoc "Access-Control-Allow-Origin" (headers resp) = Some "*"
   <-> statusCode resp = 200%Z)
  /\ (statusCode resp = 400%Z \/ statusCode resp = 500%Z ->
      assoc "Access-Control-Allow-Origin" (headers resp) = None).
Proof.
  intros Hout.
  destruct (lambda_handler_shape P event w) as (resp' & Hout' & Hshape).
  rewrite Hout in Hout'. injection Hout' as <-.
  destruct Hshape as [-> | [(result & conversation_id & ->) | (e & ->)]]; cbn.
  - split; [split; discriminate | reflexivity].
  - split; [split; reflexivity | intros [H|H]; discriminate H].
  - split; [split; discriminate | reflexivity].
Qed.

(** A greeting answered directly carries the header; a garbled body
    does not. *)
Lemma cors_iff_success_witness :
  (outcome (lambda_handler scripted hello_event calm)
   = inr (ok_response scripted (MkResult "direct" (JString "Hi there"))
                      (JString (str_uuid 42)))
   /\ assoc "Access-Control-Allow-Origin"
        (headers (ok_response scripted (MkResult "direct" (JString "Hi there"))
                              (JString (str_uuid 42))))
      = Some "*")
  /\ (outcome (lambda_handler scripted garbled_event calm)
      = inr (error_response scripted JSONDecodeError)
      /\ assoc "Access-Control-Allow-Origin"
           (headers (error_response scripted JSONDecodeError))
         = None).
Proof.
  split.
  - split; [reflexivity|].
    destruct (cors_iff_success scripted hello_event calm _ eq_refl) as [Hiff _].
    apply Hiff. reflexivity.
  - split; [reflexivity|].
    destruct (cors_iff_success scripted garbled_event calm _ eq_refl) as [_ Hno].
    apply Hno. right. reflexivity.
Defined.

(** ** A supplied, empty identifier *)

(** C9, as stated, fails: with [conversationId] supplied as the empty
    string a UUID is drawn all the same, since the default of
    [body.get] is evaluated before the lookup. *)
Lemma empty_conversation_id_draws_uuid :
  loads_value scripted
    (JString (scripted_dumps (JObject [ ("input", JString "Hello");
                                        ("conversationId", JString "") ])))
  = inr (JObject [ ("input", JString "Hello"); ("conversationId", JString "") ])
  /\ calls_of is_uuid4 (lambda_handler scripted (hello_event_in "") calm)
     = [Uuid4]
  /\ ~ (calls_of is_uuid4 (lambda_handler scripted (hello_event_in "") calm)
        = []).
Proof.
  split; [reflexivity|]. split; [reflexivity|]. discriminate.
Qed.

(** C9, amended.  With [conversationId] supplied as the empty string,
    the empty string is the identifier the handler works with and the
    [conversationId] of the body of a 200 response.  A UUID is drawn
    once, as on every request that reaches line 114, and discarded: the
    run is the same whatever value the draw gives. *)
Theorem empty_conversation_id_echoed {W} (P : Platform W) (event raw : json)
    (fields : list (string * json)) (w : W) :
  py_get event "body" (JString "{}") = inr raw ->
  loads_value P raw = inr (JObject fields) ->
  assoc "conversationId" fields = Some (JString "") ->
  let r := lambda_handler P event w in
  outcome (parse_request P event w)
  = inr (lookup_or "input" fields (JString ""), JString "")
  /\ (forall resp, outcome r = inr resp -> statusCode resp = 200%Z ->
      exists result,
        resp
        = MkResponse 200
            [ ("Content-Type", "application/json");
              ("Access-Control-Allow-Origin", "*") ]
            (json_dumps P (JObject [ ("response", response result);
                                    ("conversationId", JString "");
                                    ("status", JString (status result)) ])))
  /\ calls_of is_uuid4 r = [Uuid4]
  /\ (forall f : N -> N,
        lambda_handler
          (with_uuid4 P (fun w' => (f (fst (uuid4 P w')), snd (uuid4 P w'))))
          event w
        = r).
Proof.
  intros Hraw Hbody Hid r. subst r.
  assert (Hparse : parse_request P event w =
                   MkRun (inr (lookup_or "input" fields (JString ""), JString ""))
                         (snd (uuid4 P w)) [Uuid4]).
  { rewrite (parse_request_object P event raw fields w Hraw Hbody).
    unfold lookup_or at 2. rewrite Hid.
    destruct (uuid4 P w) as [fresh w1]. reflexivity. }
  split; [rewrite Hparse; reflexivity|]. split; [|split].
  - intros resp Hout Hcode.
    destruct (success_carries_parsed_id P event raw fields w resp
                Hraw Hbody Hout Hcode) as [result Hresp].
    unfold lookup_or in Hresp. rewrite Hid in Hresp.
    exists result. exact Hresp.
  - rewrite lambda_handler_uuid4_calls, Hparse. reflexivity.
  - intros f.
    set (P' := with_uuid4 P _).
    assert (Hparse' : parse_request P' event w = parse_request P event w).
    { rewrite Hparse.
      rewrite (parse_request_object P' event raw fields w Hraw Hbody).
      unfold lookup_or at 2. rewrite Hid. reflexivity. }
    rewrite !lambda_handler_run. cbn zeta. rewrite Hparse'.
    reflexivity.
Qed.

(** A greeting with [conversationId] given as the empty string. *)
Lemma empty_conversation_id_echoed_witness :
  py_get (hello_event_in "") "body" (JString "{}")
  = inr (JString (scripted_dumps
                    (JObject [ ("input", JString "Hello");
                               ("conversationId", JString "") ])))
  /\ loads_value scripted
       (JString (scripted_dumps
                   (JObject [ ("input", JString "Hello");
                              ("conversationId", JString "") ])))
     = inr (JObject [ ("input", JString "Hello");
                      ("conversationId", JString "") ])
  /\ assoc "conversationId"
       [ ("input", JString "Hello"); ("conversationId", JString "") ]
     = Some (JString "")
  /\ outcome (parse_request scripted (hello_event_in "") calm)
     = inr (JString "Hello", JString "").
Proof.
  split; [reflexivity|]. split; [reflexivity|]. split; [reflexivity|].
  apply (empty_conversation_id_echoed scripted (hello_event_in "") _
           [ ("input", JString "Hello"); ("conversationId", JString "") ]
           calm eq_refl eq_refl eq_refl).
Defined.

(** ** Totality *)

(** C10.  The handler returns a response for every event and every
    world; its status code is 200, 400 or 500.  A body that [json.loads]
    rejects gives the 500 response with the decoder's message, before any
    call is made. *)
Theorem handler_always_responds {W} (P : Platform W) (event : json) (w : W) :
  exists resp,
    outcome (lambda_handler P event w) = inr resp
    /\ (statusCode resp = 200%Z \/ statusCode resp = 400%Z
        \/ statusCode resp = 500%Z)
    /\ (forall s e,
          py_get event "body" (JString "{}") = inr (JString s) ->
          json_loads P s = inl e ->
          resp = error_response P e
          /\ statusCode resp = 500%Z
          /\ calls (lambda_handler P event w) = []).
Proof.
  destruct (lambda_handler_shape P event w) as (resp & Hout & Hshape).
  exists resp. split; [exact Hout|]. split.
  - destruct Hshape as [-> | [(result & conversation_id & ->) | (e & ->)]];
      cbn; auto.
  - intros s e Hraw Hloads. revert Hout.
    rewrite lambda_handler_run, parse_request_run, Hraw. cbn [loads_value].
    rewrite Hloads. cbn. intros [= <-]. repeat split.
Qed.

(** A body that is not JSON. *)
Lemma handler_always_responds_witness :
  py_get garbled_event "body" (JString "{}") = inr (JString "oops")
  /\ json_loads scripted "oops" = inl JSONDecodeError
  /\ outcome (lambda_handler scripted garbled_event calm)
     = inr (error_response scripted JSONDecodeError)
  /\ calls (lambda_handler scripted garbled_event calm) = [].
Proof.
  split; [reflexivity|]. split; [reflexivity|].
  destruct (handler_always_responds scripted garbled_event calm)
    as (resp & Hout & _ & Hbad).
  destruct (Hbad "oops" JSONDecodeError eq_refl eq_refl) as (-> & _ & Hcalls).
  split; [exact Hout | exact Hcalls].
Defined.

(** A body that decodes to something other than an object has no
    [get]: the handler answers 500 before any call. *)
Lemma non_object_body_is_server_error {W} (P : Platform W)
    (event raw decoded : json) (w : W) :
  py_get event "body" (JString "{}") = inr raw ->
  loads_value P raw = inr decoded ->
  (forall fields, decoded <> JObject fields) ->
  lambda_handler P event w
  = MkRun (inr (error_response P (AttributeError decoded "get"))) w [].
Proof.
  intros Hraw Hbody Hshape.
  rewrite lambda_handler_run, parse_request_run, Hraw, Hbody.
  destruct decoded; try reflexivity.
  now elim (Hshape fields).
Qed.

(** ** Scenarios *)

Example lower_folds_case : lower "Carbon EMISSION" = "carbon emission".
Proof. reflexivity. Qed.

Example keyword_in_any_case :
  py_in "carbon" (lower "My CARBON bill") = true
  /\ py_in "emission" (lower "Emissions?") = true
  /\ py_in "carbon" (lower "car bonnet") = false.
Proof. repeat split. Qed.

Example str_uuid_groups : str_uuid 42 = "00000000-0000-0000-0000-00000000002a".
Proof. reflexivity. Qed.

(** The commute question, everything healthy: calculation, inference,
    one item written, status [direct]. *)
Example scenario_direct :
  outcome (lambda_handler scripted commute_event calm)
  = inr (ok_response scripted (MkResult "direct" (JString "Hi there"))
                     (JString (str_uuid 42)))
  /\ calls_of is_collaborator (lambda_handler scripted commute_event calm)
     = [ calculation_call scripted (JString commute_question);
         inference_call scripted
           (explain_prompt scripted (JObject [ ("co2_kg", JInt 4) ]));
         DynamoPutItem TABLE_NAME
           (conversation_item (JString (str_uuid 42)) "1700000000000"
                              (JString commute_question) (JString "Hi there")) ].
Proof. split; reflexivity. Qed.

(** A greeting while the model is throttled: queued, nothing written. *)
Example scenario_queued :
  outcome (lambda_handler scripted hello_event overloaded)
  = inr (ok_response scripted queued_result (JString (str_uuid 42)))
  /\ calls_of is_collaborator (lambda_handler scripted hello_event overloaded)
     = [ inference_call scripted "Hello";
         SqsSendMessage QUEUE_URL
           (scripted_dumps
              (queue_message "Hello" (JString (str_uuid 42)) "1700000000000"))
           queue_attributes ].
Proof. split; reflexivity. Qed.

(** The same with the queue down: the throttling error is the 500. *)
Example scenario_queue_down :
  outcome (lambda_handler scripted hello_event overloaded_queue_down)
  = inr (error_response scripted Throttled)
  /\ calls_of is_put_item (lambda_handler scripted hello_event overloaded_queue_down)
     = [].
Proof. split; reflexivity. Qed.

(** Another model failure is not queued. *)
Example scenario_model_down :
  outcome (lambda_handler scripted hello_event model_down)
  = inr (error_response scripted ServiceDown)
  /\ calls_of is_collaborator (lambda_handler scripted hello_event model_down)
     = [ inference_call scripted "Hello" ].
Proof. split; reflexivity. Qed.

(** An event without [body]: the default ["{}"] has no input. *)
Example scenario_no_body :
  lambda_handler scripted (JObject []) calm
  = MkRun (inr (bad_request_response scripted)) (parsed calm) [Uuid4].
Proof. reflexivity. Qed.

(** A number as input is truthy but has no [lower]. *)
Example scenario_number_input :
  lambda_handler scripted (event_with (JObject [ ("input", JInt 7) ])) calm
  = MkRun (inr (error_response scripted (AttributeError (JInt 7) "lower")))
          (parsed calm) [Uuid4].
Proof. reflexivity. Qed.

(** ** The helpers on their own *)

(** [store_conversation] never raises: it makes one [put_item] on the
    table [carbon-assistant-data], with the five-field item stamped by
    the clock, and a failure of the write only reaches the log. *)
Theorem store_conversation_contained {W} (P : Platform W)
    (conversation_id user_input answer : json) (w : W) :
  let r := store_conversation P conversation_id user_input answer w in
  let item :=
    [ ("conversationId", conversation_id);
      ("timestamp", JString (str_int (fst (datetime_now_ms P w))));
      ("userInput", user_input);
      ("response", answer);
      ("type", JString "conversation") ] in
  outcome r = inr tt
  /\ calls_of is_collaborator r = [DynamoPutItem "carbon-assistant-data" item]
  /\ calls_of is_print r =
     match fst (dynamodb_put_item P "carbon-assistant-data" item
                                  (snd (datetime_now_ms P w))) with
     | inl e => [Print ("DynamoDB error: " ++ exc_str e)]
     | inr _ => []
     end.
Proof.
  cbv zeta. fold TABLE_NAME.
  fold (conversation_item conversation_id (str_int (fst (datetime_now_ms P w)))
                          user_input answer).
  unfold calls_of. rewrite store_conversation_run.
  destruct (datetime_now_ms P w) as [timestamp w1]. cbn [fst snd].
  cbv beta iota zeta.
  destruct (dynamodb_put_item P TABLE_NAME _ w1) as [[e|u] w2];
    repeat split.
Qed.

(** [enqueue_request] never raises: it publishes once to the queue, a
    message holding the prompt, the conversation identifier and the
    clock's timestamp, tagged [bedrock_inference], and returns [True]
    exactly when the publish returned; a failure is logged. *)
Theorem enqueue_request_reports {W} (P : Platform W) (prompt : string)
    (conversation_id : json) (w : W) :
  let r := enqueue_request P prompt conversation_id w in
  let message :=
    json_dumps P
      (JObject [ ("prompt", JString prompt);
                ("conversation_id", conversation_id);
                ("timestamp", JString (str_int (fst (datetime_now_ms P w)))) ]) in
  let url :=
    "https://sqs.us-east-1.amazonaws.com/[your-account-id]/carbon-bedrock-queue" in
  let sent :=
    fst (sqs_send_message P url message
                          [ ("RequestType", ("String", "bedrock_inference")) ]
                          (snd (datetime_now_ms P w))) in
  outcome r = inr match sent with inl _ => false | inr _ => true end
  /\ calls_of is_collaborator r =
     [SqsSendMessage url message
                     [ ("RequestType", ("String", "bedrock_inference")) ]]
  /\ calls_of is_print r =
     match sent with
     | inl e => [Print ("SQS error: " ++ exc_str e)]
     | inr _ => []
     end.
Proof.
  cbv zeta. fold QUEUE_URL queue_attributes.
  fold (queue_message prompt conversation_id
                      (str_int (fst (datetime_now_ms P w)))).
  unfold calls_of. rewrite enqueue_request_run.
  destruct (datetime_now_ms P w) as [timestamp w1]. cbn [fst snd].
  cbv beta iota zeta.
  destruct (sqs_send_message P QUEUE_URL _ queue_attributes w1) as [[e|u] w2];
    repeat split.
Qed.

(** [invoke_calculation_agent] calls the calculation function once,
    synchronously, with the query under the key [query].  It returns the
    decoded payload; an exception of the call or of the decoding is
    logged once and raised again unchanged. *)
Theorem invoke_calculation_agent_relays {W} (P : Platform W) (query : json)
    (w : W) :
  let r := invoke_calculation_agent P query w in
  let answered :=
    lambda_invoke P "carbon-calculation-agent" "RequestResponse"
                  (json_dumps P (JObject [ ("query", query) ])) w in
  calls_of is_collaborator r =
  [LambdaInvoke "carbon-calculation-agent" "RequestResponse"
                (json_dumps P (JObject [ ("query", query) ]))]
  /\ world r = snd answered
  /\ match fst answered with
     | inl e =>
         outcome r = inl e
         /\ calls_of is_print r =
            [Print ("Calculation agent invocation error: " ++ exc_str e)]
     | inr payload =>
         match json_loads P payload with
         | inl e =>
             outcome r = inl e
             /\ calls_of is_print r =
                [Print ("Calculation agent invocation error: " ++ exc_str e)]
         | inr v => outcome r = inr v /\ calls_of is_print r = []
         end
     end.
Proof.
  cbv zeta. unfold calls_of. rewrite invoke_calculation_agent_run.
  fold CALCULATION_FUNCTION.
  destruct (lambda_invoke P CALCULATION_FUNCTION _ _ w) as [[e|payload] w1];
    cbn [fst snd]; [repeat split|].
  destruct (json_loads P payload) as [e|v]; repeat split.
Qed.

(** ** The inference call, case by case *)

(** A run of [invoke_bedrock_with_queue] is one of four: answered;
    failed without the marker; throttled and queued; throttled with the
    queue failing too. *)
Lemma invoke_bedrock_with_queue_cases {W} (P : Platform W) (prompt : string)
    (conversation_id : json) (w : W) :
  let r := invoke_bedrock_with_queue P prompt conversation_id w in
  let answered :=
    bedrock_invoke_model P MODEL_ID "application/json" "application/json"
                         (json_dumps P (request_body prompt)) w in
  (exists text,
     direct_answer P (fst answered) = inr text
     /\ r = MkRun (inr (MkResult "direct" text)) (snd answered)
                  [inference_call P prompt])
  \/ (exists e,
        direct_answer P (fst answered) = inl e
        /\ py_in THROTTLING_MARKER (exc_str e) = false
        /\ r = MkRun (inl e) (snd answered) [inference_call P prompt])
  \/ (exists e timestamp w3,
        direct_answer P (fst answered) = inl e
        /\ py_in THROTTLING_MARKER (exc_str e) = true
        /\ r = MkRun (inr queued_result) w3
                     [inference_call P prompt; DatetimeNow;
                      SqsSendMessage QUEUE_URL
                        (json_dumps P (queue_message prompt conversation_id
                                                     timestamp))
                        queue_attributes])
  \/ (exists e e' timestamp w3,
        direct_answer P (fst answered) = inl e
        /\ py_in THROTTLING_MARKER (exc_str e) = true
        /\ r = MkRun (inl e) w3
                     [inference_call P prompt; DatetimeNow;
                      SqsSendMessage QUEUE_URL
                        (json_dumps P (queue_message prompt conversation_id
                                                     timestamp))
                        queue_attributes;
                      Print ("SQS error: " ++ exc_str e')]).
Proof.
  cbv zeta. rewrite invoke_bedrock_with_queue_run.
  destruct (bedrock_invoke_model P MODEL_ID _ _ _ w) as [x w1]. cbn [fst snd].
  destruct (direct_answer P x) as [e|text]; [|left; exists text; split; reflexivity].
  right. unfold after_failure.
  destruct (py_in THROTTLING_MARKER (exc_str e)) eqn:Hmarker;
    [|left; exists e; repeat split; exact Hmarker].
  right. rewrite enqueue_request_run.
  destruct (datetime_now_ms P w1) as [timestamp w2]. cbv beta iota zeta.
  destruct (sqs_send_message P QUEUE_URL _ queue_attributes w2) as [[e'|u] w3].
  - right. exists e, e', (str_int timestamp), w3. repeat split. exact Hmarker.
  - left. exists e, (str_int timestamp), w3. repeat split. exact Hmarker.
Qed.

(** What a returned result says about the run.  A [direct] result means
    Bedrock answered and its text was decoded: the inference call is the
    only call made, no clock read, no publish, no log line.  A [queued]
    result is the fixed one, and means the attempt failed with the
    marker and one publish was made. *)
Theorem inference_result_inversion {W} (P : Platform W) (prompt : string)
    (conversation_id : json) (w : W) (result : InferenceResult) :
  let r := invoke_bedrock_with_queue P prompt conversation_id w in
  let answered :=
    bedrock_invoke_model P MODEL_ID "application/json" "application/json"
                         (json_dumps P (request_body prompt)) w in
  outcome r = inr result ->
  (status result = "direct" ->
   calls r = [inference_call P prompt]
   /\ world r = snd answered
   /\ direct_answer P (fst answered) = inr (response result))
  /\ (status result = "queued" ->
      response result = JString QUEUED_MESSAGE
      /\ length (calls_of is_publish r) = 1
      /\ calls_of is_print r = []
      /\ exists e, direct_answer P (fst answered) = inl e
                   /\ py_in THROTTLING_MARKER (exc_str e) = true).
Proof.
  intros r answered. subst r answered.
  destruct (invoke_bedrock_with_queue_cases P prompt conversation_id w)
    as [(text & Hd & ->) | [(e & Hd & Hm & ->)
       | [(e & t & w3 & Hd & Hm & ->) | (e & e' & t & w3 & Hd & Hm & ->)]]];
    cbn [outcome calls world]; intros [= <-]; cbn [status response].
  - split; [intros _; repeat split; exact Hd | discriminate].
  - split; [discriminate|]. intros _. repeat split. exists e. split; assumption.
Qed.

(** A greeting answered directly. *)
Lemma inference_result_inversion_witness :
  outcome (invoke_bedrock_with_queue scripted "Hello" (JString "c-1") calm)
  = inr (MkResult "direct" (JString "Hi there"))
  /\ status (MkResult "direct" (JString "Hi there")) = "direct"
  /\ calls (invoke_bedrock_with_queue scripted "Hello" (JString "c-1") calm)
     = [inference_call scripted "Hello"].
Proof.
  split; [reflexivity|]. split; [reflexivity|].
  destruct (inference_result_inversion scripted "Hello" (JString "c-1") calm
              (MkResult "direct" (JString "Hi there")) eq_refl) as [Hdirect _].
  destruct (Hdirect eq_refl) as [Hcalls _]. exact Hcalls.
Defined.

(** The subscripts of lines 81-84 cannot raise a throttling error. *)
Lemma getitem_str_not_throttling (v : json) (key : string) (e : PyExc) :
  key = "content" \/ key = "text" ->
  getitem_str v key = inl e ->
  py_in THROTTLING_MARKER (exc_str e) = false.
Proof.
  intros Hkey. unfold getitem_str.
  destruct v; try (intros [= <-]; reflexivity).
  destruct (assoc key fields); [discriminate|].
  intros [= <-]. destruct Hkey as [-> | ->]; reflexivity.
Qed.

Lemma getitem_0_not_throttling (v : json) (e : PyExc) :
  getitem_0 v = inl e -> py_in THROTTLING_MARKER (exc_str e) = false.
Proof.
  unfold getitem_0.
  destruct v as [| | | |[|c s]|[|x items]|]; try discriminate;
    intros [= <-]; reflexivity.
Qed.

(** An answer that is JSON but not of the expected shape (no [content],
    an empty list, no [text]) is never taken for throttling: the lookup
    error is raised again, nothing is published and the clock is not
    read. *)
Theorem malformed_answer_not_queued {W} (P : Platform W) (prompt : string)
    (conversation_id : json) (w w1 : W) (raw : string) (decoded : json)
    (e : PyExc) :
  bedrock_invoke_model P MODEL_ID "application/json" "application/json"
                       (json_dumps P (request_body prompt)) w = (inr raw, w1) ->
  json_loads P raw = inr decoded ->
  answer_text P raw = inl e ->
  py_in THROTTLING_MARKER (exc_str e) = false
  /\ invoke_bedrock_with_queue P prompt conversation_id w
     = MkRun (inl e) w1 [inference_call P prompt].
Proof.
  intros Hcall Hloads Htext.
  assert (Hmarker : py_in THROTTLING_MARKER (exc_str e) = false).
  { revert Htext. unfold answer_text. rewrite Hloads.
    destruct (getitem_str decoded "content") as [e1|content] eqn:H1.
    - intros [= <-]. apply (getitem_str_not_throttling decoded "content"); auto.
    - destruct (getitem_0 content) as [e2|first] eqn:H2.
      + intros [= <-]. apply (getitem_0_not_throttling content). exact H2.
      + intros H3. apply (getitem_str_not_throttling first "text"); auto. }
  split; [exact Hmarker|].
  rewrite invoke_bedrock_with_queue_run, Hcall. cbn [direct_answer].
  rewrite Htext. unfold after_failure. rewrite Hmarker. reflexivity.
Qed.

(** The model answers with an empty JSON list. *)
Lemma malformed_answer_not_queued_witness :
  bedrock_invoke_model scripted MODEL_ID "application/json" "application/json"
    (json_dumps scripted (request_body "Hello")) model_garbled
  = (inr "[]", model_garbled)
  /\ json_loads scripted "[]" = inr (JArray [])
  /\ answer_text scripted "[]"
     = inl (TypeError "list indices must be integers or slices, not str")
  /\ outcome (invoke_bedrock_with_queue scripted "Hello" (JString "c-1")
                                        model_garbled)
     = inl (TypeError "list indices must be integers or slices, not str").
Proof.
  split; [reflexivity|]. split; [reflexivity|]. split; [reflexivity|].
  destruct (malformed_answer_not_queued scripted "Hello" (JString "c-1")
              model_garbled model_garbled "[]" (JArray [])
              (TypeError "list indices must be integers or slices, not str")
              eq_refl eq_refl eq_refl) as [_ Hrun].
  rewrite Hrun. reflexivity.
Defined.

(** ** The calls of a whole request *)

(** The routing step is an optional calculation, whose calls are [pre],
    followed by one run of [invoke_bedrock_with_queue]. *)
Lemma route_request_split {W} (P : Platform W) (text : string)
    (conversation_id : json) (w : W) :
  exists pre prompt w',
    route_request P (JString text) conversation_id w
    = (let ri := invoke_bedrock_with_queue P prompt conversation_id w' in
       MkRun (outcome ri) (world ri) (pre ++ calls ri))
    /\ (pre = []
        \/ pre = [calculation_call P (JString text)]
        \/ exists line, pre = [calculation_call P (JString text); Print line]).
Proof.
  destruct (py_in "carbon" (lower text) || py_in "emission" (lower text)) eqn:K.
  - rewrite (route_request_calc _ _ _ _ K). cbv zeta.
    rewrite invoke_calculation_agent_run.
    destruct (lambda_invoke P CALCULATION_FUNCTION _ _ w) as [[e|payload] w1].
    2: destruct (json_loads P payload) as [e|v].
    all: cbn [outcome world calls]; do 3 eexists; split; [reflexivity|].
    all: eauto.
  - rewrite (route_request_plain _ _ _ _ K).
    exists [], text, w. split; [|left; reflexivity].
    cbv zeta. cbn [app].
    destruct (invoke_bedrock_with_queue P text conversation_id w); reflexivity.
Qed.

(** Every request is of one of five kinds, told apart by its response;
    [cs] are its service calls in order. *)
Lemma lambda_handler_collaborators {W} (P : Platform W) (event : json) (w : W) :
  let r := lambda_handler P event w in
  let cs := calls_of is_collaborator r in
  (outcome r = inr (bad_request_response P) /\ cs = [])
  \/ (exists e, outcome r = inr (error_response P e) /\ cs = [])
  \/ (exists e pre prompt post,
        outcome r = inr (error_response P e)
        /\ cs = (pre ++ inference_call P prompt :: post)%list
        /\ (pre = [] \/ exists q, pre = [calculation_call P q])
        /\ (post = []
            \/ exists m, post = [SqsSendMessage QUEUE_URL m queue_attributes]))
  \/ (exists text conversation_id pre prompt item,
        outcome r = inr (ok_response P (MkResult "direct" text) conversation_id)
        /\ cs = (pre ++ [inference_call P prompt;
                         DynamoPutItem TABLE_NAME item])%list
        /\ (pre = [] \/ exists q, pre = [calculation_call P q]))
  \/ (exists conversation_id pre prompt m,
        outcome r = inr (ok_response P queued_result conversation_id)
        /\ cs = (pre ++ [inference_call P prompt;
                         SqsSendMessage QUEUE_URL m queue_attributes])%list
        /\ (pre = [] \/ exists q, pre = [calculation_call P q])).
Proof.
  cbv zeta. unfold calls_of. rewrite lambda_handler_run. cbv zeta.
  destruct (outcome (parse_request P event w))
    as [e|[user_input conversation_id]].
  { right. left. exists e. split; [reflexivity|].
    apply parse_request_calls. reflexivity. }
  destruct (truthy user_input).
  2: { left. split; [reflexivity|]. apply parse_request_calls. reflexivity. }
  set (w0 := world (parse_request P event w)).
  destruct user_input as [| | | |text| |];
    try (right; left; eexists; split; [reflexivity|]; cbn [calls];
         rewrite app_nil_r; apply parse_request_calls; reflexivity).
  destruct (route_request_split P text conversation_id w0)
    as (pre & prompt & w' & -> & Hpre).
  assert (Hfilter : exists pre',
             filter is_collaborator pre = pre'
             /\ (pre' = [] \/ exists q, pre' = [calculation_call P q])).
  { destruct Hpre as [-> | [-> | (line & ->)]]; eexists; split;
      try reflexivity; [left | right; eexists | right; eexists]; reflexivity. }
  destruct Hfilter as (pre' & Hpre' & Hshape). clear Hpre.
  cbv zeta.
  destruct (invoke_bedrock_with_queue_cases P prompt conversation_id w')
    as [(text' & _ & ->) | [(e & _ & _ & ->)
       | [(e & t & w3 & _ & _ & ->) | (e & e' & t & w3 & _ & _ & ->)]]];
    cbn [outcome calls world].
  - right. right. right. left.
    rewrite respond_run. cbn [status response String.eqb Ascii.eqb Bool.eqb andb].
    cbv zeta. rewrite store_conversation_run.
    destruct (datetime_now_ms P _) as [t w2]. cbv beta iota zeta.
    destruct (dynamodb_put_item P TABLE_NAME _ w2) as [x w3]. cbn [calls].
    exists text', conversation_id, pre', prompt. eexists.
    split; [reflexivity|]. split; [|exact Hshape].
    rewrite !filter_app, parse_request_calls, Hpre' by reflexivity.
    destruct x; cbn; rewrite <- app_assoc; reflexivity.
  - right. right. left. exists e, pre', prompt, []. split; [reflexivity|].
    split; [|split; [exact Hshape | left; reflexivity]].
    rewrite !filter_app, parse_request_calls, Hpre' by reflexivity.
    cbn; rewrite <- ?app_assoc, ?app_nil_r; reflexivity.
  - right. right. right. right.
    rewrite respond_run. cbn [status String.eqb Ascii.eqb Bool.eqb andb].
    exists conversation_id, pre', prompt. eexists.
    split; [reflexivity|]. split; [|exact Hshape].
    cbv zeta. cbn [calls].
    rewrite !filter_app, parse_request_calls, Hpre' by reflexivity.
    cbn; rewrite <- ?app_assoc, ?app_nil_r; reflexivity.
  - right. right. left. exists e, pre', prompt. eexists. split; [reflexivity|].
    split; [|split; [exact Hshape | right; eexists; reflexivity]].
    rewrite !filter_app, parse_request_calls, Hpre' by reflexivity.
    cbn; rewrite <- ?app_assoc, ?app_nil_r; reflexivity.
Qed.

Lemma filter_within {A} (k big : A -> bool) (l : list A) :
  (forall a, k a = true -> big a = true) ->
  filter k (filter big l) = filter k l.
Proof.
  intros Hsub. induction l as [|a l IH]; [reflexivity|]. cbn.
  destruct (big a) eqn:Hb; cbn.
  - rewrite IH. reflexivity.
  - destruct (k a) eqn:Hk; [|exact IH].
    rewrite (Hsub a Hk) in Hb. discriminate.
Qed.

(** The service calls of a request, in order: nothing at all, or an
    optional calculation call, then one inference call, then at most one
    of a queue publish and a table write. *)
Theorem collaborator_call_shape {W} (P : Platform W) (event : json) (w : W) :
  let cs := calls_of is_collaborator (lambda_handler P event w) in
  cs = []
  \/ exists pre prompt post,
       cs = (pre ++ inference_call P prompt :: post)%list
       /\ (pre = [] \/ exists q, pre = [calculation_call P q])
       /\ (post = []
           \/ (exists m, post = [SqsSendMessage QUEUE_URL m queue_attributes])
           \/ exists item, post = [DynamoPutItem TABLE_NAME item]).
Proof.
  cbv zeta.
  destruct (lambda_handler_collaborators P event w)
    as [(_ & Hcs) | [(e & _ & Hcs) | [(e & pre & prompt & post & _ & Hcs & Hpre & Hpost)
       | [(text & c & pre & prompt & item & _ & Hcs & Hpre)
       | (c & pre & prompt & m & _ & Hcs & Hpre)]]]].
  - left. exact Hcs.
  - left. exact Hcs.
  - right. exists pre, prompt, post. split; [exact Hcs|]. split; [exact Hpre|].
    destruct Hpost as [-> | Hm]; [left; reflexivity | right; left; exact Hm].
  - right. exists pre, prompt, [DynamoPutItem TABLE_NAME item].
    split; [exact Hcs|]. split; [exact Hpre|]. right. right. eexists. reflexivity.
  - right. exists pre, prompt, [SqsSendMessage QUEUE_URL m queue_attributes].
    split; [exact Hcs|]. split; [exact Hpre|]. right. left. eexists. reflexivity.
Qed.

(** No retry and no double handling: within one request each service
    is called at most once, and a request is never both queued and
    stored. *)
Theorem no_service_called_twice {W} (P : Platform W) (event : json) (w : W) :
  let r := lambda_handler P event w in
  length (calls_of is_calculation r) <= 1
  /\ length (calls_of is_inference r) <= 1
  /\ length (calls_of is_publish r) + length (calls_of is_put_item r) <= 1.
Proof.
  cbv zeta. unfold calls_of.
  rewrite <- (filter_within is_calculation is_collaborator),
          <- (filter_within is_inference is_collaborator),
          <- (filter_within is_publish is_collaborator),
          <- (filter_within is_put_item is_collaborator)
    by (intros []; cbn; congruence).
  destruct (lambda_handler_collaborators P event w)
    as [(_ & Hcs) | [(e & _ & Hcs) | [(e & pre & prompt & post & _ & Hcs & Hpre & Hpost)
       | [(text & c & pre & prompt & item & _ & Hcs & Hpre)
       | (c & pre & prompt & m & _ & Hcs & Hpre)]]]];
    unfold calls_of in Hcs; rewrite Hcs; clear Hcs.
  - cbn. lia.
  - cbn. lia.
  - destruct Hpre as [-> | (q & ->)]; destruct Hpost as [-> | (m & ->)];
      cbn; lia.
  - destruct Hpre as [-> | (q & ->)]; cbn; lia.
  - destruct Hpre as [-> | (q & ->)]; cbn; lia.
Qed.

(** What the status code tells: a 200 response was preceded by exactly
    one inference call; a table write happens only on the way to a 200
    response; a 400 response was preceded by no service call. *)
Theorem status_code_and_calls {W} (P : Platform W) (event : json) (w : W)
    (resp : HttpResponse) :
  let r := lambda_handler P event w in
  outcome r = inr resp ->
  (statusCode resp = 200%Z -> length (calls_of is_inference r) = 1)
  /\ (calls_of is_put_item r <> [] -> statusCode resp = 200%Z)
  /\ (statusCode resp = 400%Z -> calls_of is_collaborator r = []).
Proof.
  cbv zeta. unfold calls_of.
  rewrite <- (filter_within is_inference is_collaborator),
          <- (filter_within is_put_item is_collaborator)
    by (intros []; cbn; congruence).
  destruct (lambda_handler_collaborators P event w)
    as [(Hout & Hcs) | [(e & Hout & Hcs)
       | [(e & pre & prompt & post & Hout & Hcs & Hpre & Hpost)
       | [(text & c & pre & prompt & item & Hout & Hcs & Hpre)
       | (c & pre & prompt & m & Hout & Hcs & Hpre)]]]];
    unfold calls_of in Hcs; rewrite Hcs, Hout; clear Hcs Hout;
    intros [= <-]; cbn [statusCode bad_request_response error_response ok_response].
  - repeat split; try discriminate. cbn. congruence.
  - repeat split; try discriminate. cbn. congruence.
  - split; [discriminate|]. split; [|discriminate].
    destruct Hpre as [-> | (q & ->)]; destruct Hpost as [-> | (m & ->)];
      cbn; congruence.
  - split; [|split; [reflexivity | discriminate]].
    intros _. destruct Hpre as [-> | (q & ->)]; reflexivity.
  - split; [|split; [reflexivity | discriminate]].
    intros _. destruct Hpre as [-> | (q & ->)]; reflexivity.
Qed.

(** A greeting answered directly: one inference call before the 200. *)
Lemma status_code_and_calls_witness :
  outcome (lambda_handler scripted hello_event calm)
  = inr (ok_response scripted (MkResult "direct" (JString "Hi there"))
                     (JString (str_uuid 42)))
  /\ length (calls_of is_inference (lambda_handler scripted hello_event calm)) = 1.
Proof.
  split; [reflexivity|].
  destruct (status_code_and_calls scripted hello_event calm _ eq_refl)
    as [Hone _].
  apply Hone. reflexivity.
Defined.

(** For a body that decodes to an object, the 400 response is returned
    exactly when [input] is absent or falsy: a truthy input is never
    rejected as missing. *)
Theorem rejected_iff_falsy_input {W} (P : Platform W) (event raw : json)
    (fields : list (string * json)) (w : W) (resp : HttpResponse) :
  py_get event "body" (JString "{}") = inr raw ->
  loads_value P raw = inr (JObject fields) ->
  outcome (lambda_handler P event w) = inr resp ->
  (statusCode resp = 400%Z
   <-> truthy (lookup_or "input" fields (JString "")) = false).
Proof.
  intros Hraw Hbody. rewrite lambda_handler_run. cbv zeta.
  rewrite (parse_request_object P event raw fields w Hraw Hbody).
  destruct (uuid4 P w) as [fresh w1]. cbn [outcome world calls].
  destruct (truthy (lookup_or "input" fields (JString ""))).
  - destruct (outcome (route_request P _ _ w1)); cbn [outcome];
      intros [= <-]; split; discriminate.
  - intros [= <-]. split; reflexivity.
Qed.

(** An empty input is rejected, a greeting is not. *)
Lemma rejected_iff_falsy_input_witness :
  py_get hello_event "body" (JString "{}")
  = inr (JString (scripted_dumps (JObject [ ("input", JString "Hello") ])))
  /\ loads_value scripted
       (JString (scripted_dumps (JObject [ ("input", JString "Hello") ])))
     = inr (JObject [ ("input", JString "Hello") ])
  /\ outcome (lambda_handler scripted hello_event model_down)
     = inr (error_response scripted ServiceDown)
  /\ statusCode (error_response scripted ServiceDown) <> 400%Z.
Proof.
  split; [reflexivity|]. split; [reflexivity|]. split; [reflexivity|].
  intros H400.
  apply (rejected_iff_falsy_input scripted hello_event _
           [ ("input", JString "Hello") ] model_down _ eq_refl eq_refl eq_refl)
    in H400.
  discriminate H400.
Defined.

(** ** One conversation per request *)

Lemma parse_request_only_draws {W} (P : Platform W) (event : json) (w : W) :
  calls (parse_request P event w) = []
  \/ calls (parse_request P event w) = [Uuid4].
Proof.
  rewrite parse_request_run.
  destruct (py_get event "body" (JString "{}")) as [e|raw]; [left; reflexivity|].
  destruct (loads_value P raw) as [e|decoded]; [left; reflexivity|].
  destruct (py_get decoded "input" (JString "")) as [e|user_input];
    [left; reflexivity|].
  destruct (uuid4 P w) as [fresh w1].
  destruct (py_get decoded "conversationId" _); right; reflexivity.
Qed.

(** Whatever a request sends to the queue or writes to the table is
    about the conversation it parsed: a queue message is built for the
    parsed identifier, a stored item is filed under it and holds the
    user's own input (not the composed prompt). *)
Theorem conversation_threaded {W} (P : Platform W) (event : json) (w : W)
    (user_input conversation_id : json) :
  outcome (parse_request P event w) = inr (user_input, conversation_id) ->
  Forall (carries_conversation P user_input conversation_id)
         (calls (lambda_handler P event w)).
Proof.
  intros Hparse. rewrite lambda_handler_run. cbv zeta. rewrite Hparse.
  assert (H0 : Forall (carries_conversation P user_input conversation_id)
                      (calls (parse_request P event w))).
  { destruct (parse_request_only_draws P event w) as [-> | ->];
      repeat constructor. }
  destruct (truthy user_input); [|exact H0].
  set (w0 := world (parse_request P event w)).
  destruct user_input as [| | | |text| |];
    try (cbn [route_request raise outcome calls]; rewrite app_nil_r; exact H0).
  destruct (route_request_split P text conversation_id w0)
    as (pre & prompt & w' & -> & Hpre).
  assert (H1 : Forall (carries_conversation P (JString text) conversation_id) pre).
  { destruct Hpre as [-> | [-> | (line & ->)]]; repeat constructor. }
  cbv zeta.
  destruct (invoke_bedrock_with_queue_cases P prompt conversation_id w')
    as [(text' & _ & ->) | [(e & _ & _ & ->)
       | [(e & t & w3 & _ & _ & ->) | (e & e' & t & w3 & _ & _ & ->)]]];
    cbn [outcome calls world].
  - rewrite respond_run. cbn [status response String.eqb Ascii.eqb Bool.eqb andb].
    cbv zeta. rewrite store_conversation_run.
    destruct (datetime_now_ms P _) as [t w2]. cbv beta iota zeta.
    destruct (dynamodb_put_item P TABLE_NAME _ w2) as [[e|u] w3]; cbn [calls];
      repeat (apply Forall_app; split); trivial; repeat constructor.
  - repeat (apply Forall_app; split); trivial; repeat constructor.
  - rewrite respond_run. cbn [status String.eqb Ascii.eqb Bool.eqb andb].
    cbv zeta. cbn [calls].
    repeat (apply Forall_app; split); trivial; repeat constructor.
    exists prompt, t. reflexivity.
  - repeat (apply Forall_app; split); trivial; repeat constructor.
    exists prompt, t. reflexivity.
Qed.

(** A throttled greeting under identifier ["c-1"]: the queue message is
    built for ["c-1"]. *)
Lemma conversation_threaded_witness :
  outcome (parse_request scripted (hello_event_in "c-1") overloaded)
  = inr (JString "Hello", JString "c-1")
  /\ Forall (carries_conversation scripted (JString "Hello") (JString "c-1"))
            (calls (lambda_handler scripted (hello_event_in "c-1") overloaded)).
Proof.
  split; [reflexivity|].
  apply (conversation_threaded scripted (hello_event_in "c-1") overloaded
           (JString "Hello") (JString "c-1") eq_refl).
Defined.

(** ** Whole requests *)

(** A text without keyword, the model throttled, the queue accepting:
    the request ends in the 200 response with status [queued] and the
    fixed message, after the inference call, one clock read and one
    publish of the raw text under the parsed identifier; nothing is
    stored. *)
Theorem throttled_request_is_queued {W} (P : Platform W) (event : json)
    (w w1 w3 : W) (text : string) (conversation_id : json)
    (x : PyExc + string) (e : PyExc) :
  let r0 := parse_request P event w in
  outcome r0 = inr (JString text, conversation_id) ->
  text <> "" ->
  mentions_keyword text = false ->
  let request :=
    (json_dumps P
       (JObject
          [ ("anthropic_version", JString "bedrock-2023-05-31");
            ("max_tokens", JInt 500);
            ("messages",
             JArray
               [ JObject
                   [ ("role", JString "user");
                     ("content",
                      JArray [ JObject [ ("type", JString "text");
                                         ("text", JString text) ] ]) ] ]) ])) in
  bedrock_invoke_model P "anthropic.claude-3-5-sonnet-20240620-v1:0"
    "application/json" "application/json" request (world r0) = (x, w1) ->
  direct_answer P x = inl e ->
  py_in "ThrottlingException" (exc_str e) = true ->
  let message :=
    json_dumps P
      (JObject [ ("prompt", JString text);
                ("conversation_id", conversation_id);
                ("timestamp", JString (str_int (fst (datetime_now_ms P w1)))) ]) in
  let url :=
    "https://sqs.us-east-1.amazonaws.com/[your-account-id]/carbon-bedrock-queue" in
  sqs_send_message P url message [ ("RequestType", ("String", "bedrock_inference")) ]
                   (snd (datetime_now_ms P w1)) = (inr tt, w3) ->
  lambda_handler P event w
  = MkRun
      (inr (MkResponse 200
              [ ("Content-Type", "application/json");
                ("Access-Control-Allow-Origin", "*") ]
              (json_dumps P (JObject [ ("response", (JString
                 "Your request has been queued due to high demand. You'll receive a response shortly via our notification system. In the meantime, here's some general guidance: Carbon emissions from electricity usage depend on your region's energy mix and the time of consumption. Consider implementing energy efficiency measures and shifting usage to off-peak hours when possible."));
                                      ("conversationId", conversation_id);
                                      ("status", JString "queued") ]))))
      w3
      (calls r0
       ++ [ BedrockInvokeModel "anthropic.claude-3-5-sonnet-20240620-v1:0"
              "application/json" "application/json" request;
            DatetimeNow;
            SqsSendMessage url message
              [ ("RequestType", ("String", "bedrock_inference")) ] ]).
Proof.
  intros r0 Hparse Hne K request Hcall Hfail Hmarker message url Hsend.
  subst r0 request message url.
  change (bedrock_invoke_model P MODEL_ID "application/json" "application/json"
            (json_dumps P (request_body text))
            (world (parse_request P event w)) = (x, w1)) in Hcall.
  change (py_in THROTTLING_MARKER (exc_str e) = true) in Hmarker.
  change (sqs_send_message P QUEUE_URL
            (json_dumps P (queue_message text conversation_id
                                         (str_int (fst (datetime_now_ms P w1)))))
            queue_attributes (snd (datetime_now_ms P w1)) = (inr tt, w3)) in Hsend.
  assert (Htruthy : truthy (JString text) = true)
    by (destruct text; [congruence | reflexivity]).
  rewrite lambda_handler_run. cbv zeta. rewrite Hparse, Htruthy.
  rewrite (route_request_plain _ _ _ _ K), invoke_bedrock_with_queue_run, Hcall,
    Hfail.
  unfold after_failure. rewrite Hmarker, enqueue_request_run.
  destruct (datetime_now_ms P w1) as [t w2]. cbn [fst snd] in Hsend.
  cbv beta iota zeta. rewrite Hsend. cbn [outcome world calls].
  rewrite respond_run. cbn. reflexivity.
Qed.

Lemma throttled_request_is_queued_witness :
  outcome (parse_request scripted hello_event overloaded)
  = inr (JString "Hello", JString (str_uuid 42))
  /\ "Hello" <> ""
  /\ mentions_keyword "Hello" = false
  /\ direct_answer scripted (inl Throttled) = inl Throttled
  /\ py_in THROTTLING_MARKER (exc_str Throttled) = true
  /\ outcome (lambda_handler scripted hello_event overloaded)
     = inr (ok_response scripted queued_result (JString (str_uuid 42))).
Proof.
  split; [reflexivity|]. split; [discriminate|]. split; [reflexivity|].
  split; [reflexivity|]. split; [reflexivity|].
  rewrite (throttled_request_is_queued scripted hello_event overloaded
             (parsed overloaded) (snd (datetime_now_ms scripted (parsed overloaded)))
             "Hello" (JString (str_uuid 42)) (inl Throttled) Throttled
             eq_refl ltac:(discriminate) eq_refl eq_refl eq_refl eq_refl eq_refl).
  reflexivity.
Defined.

(** The same with the queue failing: the 500 response carries the text
    of the throttling error, not of the queue error, which only reaches
    the log; nothing is stored. *)
Theorem throttled_request_with_queue_down {W} (P : Platform W) (event : json)
    (w w1 w3 : W) (text : string) (conversation_id : json)
    (x : PyExc + string) (e e' : PyExc) :
  let r0 := parse_request P event w in
  outcome r0 = inr (JString text, conversation_id) ->
  text <> "" ->
  mentions_keyword text = false ->
  let request :=
    (json_dumps P
       (JObject
          [ ("anthropic_version", JString "bedrock-2023-05-31");
            ("max_tokens", JInt 500);
            ("messages",
             JArray
               [ JObject
                   [ ("role", JString "user");
                     ("content",
                      JArray [ JObject [ ("type", JString "text");
                                         ("text", JString text) ] ]) ] ]) ])) in
  bedrock_invoke_model P "anthropic.claude-3-5-sonnet-20240620-v1:0"
    "application/json" "application/json" request (world r0) = (x, w1) ->
  direct_answer P x = inl e ->
  py_in "ThrottlingException" (exc_str e) = true ->
  let message :=
    json_dumps P
      (JObject [ ("prompt", JString text);
                ("conversation_id", conversation_id);
                ("timestamp", JString (str_int (fst (datetime_now_ms P w1)))) ]) in
  let url :=
    "https://sqs.us-east-1.amazonaws.com/[your-account-id]/carbon-bedrock-queue" in
  sqs_send_message P url message [ ("RequestType", ("String", "bedrock_inference")) ]
                   (snd (datetime_now_ms P w1)) = (inl e', w3) ->
  lambda_handler P event w
  = MkRun
      (inr (MkResponse 500
              [ ("Content-Type", "application/json") ]
              (json_dumps P (JObject [ ("error", JString (exc_str e)) ]))))
      w3
      (calls r0
       ++ [ BedrockInvokeModel "anthropic.claude-3-5-sonnet-20240620-v1:0"
              "application/json" "application/json" request;
            DatetimeNow;
            SqsSendMessage url message
              [ ("RequestType", ("String", "bedrock_inference")) ];
            Print ("SQS error: " ++ exc_str e') ]).
Proof.
  intros r0 Hparse Hne K request Hcall Hfail Hmarker message url Hsend.
  subst r0 request message url.
  change (bedrock_invoke_model P MODEL_ID "application/json" "application/json"
            (json_dumps P (request_body text))
            (world (parse_request P event w)) = (x, w1)) in Hcall.
  change (py_in THROTTLING_MARKER (exc_str e) = true) in Hmarker.
  change (sqs_send_message P QUEUE_URL
            (json_dumps P (queue_message text conversation_id
                                         (str_int (fst (datetime_now_ms P w1)))))
            queue_attributes (snd (datetime_now_ms P w1)) = (inl e', w3)) in Hsend.
  assert (Htruthy : truthy (JString text) = true)
    by (destruct text; [congruence | reflexivity]).
  rewrite lambda_handler_run. cbv zeta. rewrite Hparse, Htruthy.
  rewrite (route_request_plain _ _ _ _ K), invoke_bedrock_with_queue_run, Hcall,
    Hfail.
  unfold after_failure. rewrite Hmarker, enqueue_request_run.
  destruct (datetime_now_ms P w1) as [t w2]. cbn [fst snd] in Hsend.
  cbv beta iota zeta. rewrite Hsend. reflexivity.
Qed.

Lemma throttled_request_with_queue_down_witness :
  outcome (parse_request scripted hello_event overloaded_queue_down)
  = inr (JString "Hello", JString (str_uuid 42))
  /\ "Hello" <> ""
  /\ mentions_keyword "Hello" = false
  /\ direct_answer scripted (inl Throttled) = inl Throttled
  /\ py_in THROTTLING_MARKER (exc_str Throttled) = true
  /\ outcome (lambda_handler scripted hello_event overloaded_queue_down)
     = inr (error_response scripted Throttled).
Proof.
  split; [reflexivity|]. split; [discriminate|]. split; [reflexivity|].
  split; [reflexivity|]. split; [reflexivity|].
  rewrite (throttled_request_with_queue_down scripted hello_event
             overloaded_queue_down (parsed overloaded_queue_down)
             (snd (datetime_now_ms scripted (parsed overloaded_queue_down)))
             "Hello" (JString (str_uuid 42)) (inl Throttled) Throttled ServiceDown
             eq_refl ltac:(discriminate) eq_refl eq_refl eq_refl eq_refl eq_refl).
  reflexivity.
Defined.

(** A text with a keyword, the calculation and the model both
    answering: the model is asked to explain the decoded calculation
    results, its text is returned with status [direct], and the item
    stored holds the user's question and that text. *)
Theorem calculated_request_is_explained {W} (P : Platform W) (event : json)
    (w w1 w2 : W) (text payload raw : string) (conversation_id results reply : json) :
  let r0 := parse_request P event w in
  outcome r0 = inr (JString text, conversation_id) ->
  mentions_keyword text = true ->
  lambda_invoke P "carbon-calculation-agent" "RequestResponse"
                (json_dumps P (JObject [ ("query", JString text) ])) (world r0)
  = (inr payload, w1) ->
  json_loads P payload = inr results ->
  let prompt :=
    "Explain these carbon emission calculation results briefly and clearly: "
    ++ format_value P results in
  bedrock_invoke_model P "anthropic.claude-3-5-sonnet-20240620-v1:0"
    "application/json" "application/json"
    (json_dumps P
       (JObject
          [ ("anthropic_version", JString "bedrock-2023-05-31");
            ("max_tokens", JInt 500);
            ("messages",
             JArray
               [ JObject
                   [ ("role", JString "user");
                     ("content",
                      JArray [ JObject [ ("type", JString "text");
                                         ("text", JString prompt) ] ]) ] ]) ])) w1
  = (inr raw, w2) ->
  answer_text P raw = inr reply ->
  let r := lambda_handler P event w in
  outcome r
  = inr (MkResponse 200
          [ ("Content-Type", "application/json");
            ("Access-Control-Allow-Origin", "*") ]
          (json_dumps P (JObject [ ("response", reply);
                                  ("conversationId", conversation_id);
                                  ("status", JString "direct") ])))
  /\ calls_of is_collaborator r
     = [ LambdaInvoke "carbon-calculation-agent" "RequestResponse"
           (json_dumps P (JObject [ ("query", (JString text)) ]));
         BedrockInvokeModel "anthropic.claude-3-5-sonnet-20240620-v1:0"
           "application/json" "application/json"
           (json_dumps P
              (JObject
                 [ ("anthropic_version", JString "bedrock-2023-05-31");
                   ("max_tokens", JInt 500);
                   ("messages",
                    JArray
                      [ JObject
                          [ ("role", JString "user");
                            ("content",
                             JArray [ JObject [ ("type", JString "text");
                                                ("text", JString prompt) ] ]) ] ]) ]));
         DynamoPutItem "carbon-assistant-data"
           [ ("conversationId", conversation_id);
             ("timestamp", JString (str_int (fst (datetime_now_ms P w2))));
             ("userInput", (JString text));
             ("response", reply);
             ("type", JString "conversation") ] ].
Proof.
  intros r0 Hparse K Hcalc Hresults prompt Hcall Hreply r. subst r0 r.
  assert (Hprompt : prompt = explain_prompt P results) by reflexivity.
  clearbody prompt. subst prompt.
  change (lambda_invoke P CALCULATION_FUNCTION "RequestResponse"
            (json_dumps P (JObject [ ("query", JString text) ]))
            (world (parse_request P event w)) = (inr payload, w1)) in Hcalc.
  change (bedrock_invoke_model P MODEL_ID "application/json" "application/json"
            (json_dumps P (request_body (explain_prompt P results))) w1
          = (inr raw, w2)) in Hcall.
  assert (Htruthy : truthy (JString text) = true).
  { destruct text; [discriminate K | reflexivity]. }
  unfold calls_of. rewrite lambda_handler_run. cbv zeta.
  rewrite Hparse, Htruthy, (route_request_calc _ _ _ _ K). cbv zeta.
  rewrite invoke_calculation_agent_run, Hcalc, Hresults. cbn [outcome world calls].
  rewrite invoke_bedrock_with_queue_run, Hcall. cbn [direct_answer].
  rewrite Hreply. cbn [outcome world calls].
  rewrite respond_run. cbn [status response String.eqb Ascii.eqb Bool.eqb andb].
  cbv zeta. rewrite store_conversation_run.
  destruct (datetime_now_ms P w2) as [t w3]. cbv beta iota zeta. cbn [fst].
  destruct (dynamodb_put_item P TABLE_NAME _ w3) as [[e|u] w4]; cbn [calls outcome];
    (split; [reflexivity|]);
    rewrite !filter_app, parse_request_calls by reflexivity; reflexivity.
Qed.

Lemma calculated_request_is_explained_witness :
  outcome (parse_request scripted commute_event calm)
  = inr (JString commute_question, JString (str_uuid 42))
  /\ mentions_keyword commute_question = true
  /\ json_loads scripted (scripted_dumps (JObject [ ("co2_kg", JInt 4) ]))
     = inr (JObject [ ("co2_kg", JInt 4) ])
  /\ answer_text scripted (scripted_dumps (model_answer "Hi there"))
     = inr (JString "Hi there")
  /\ outcome (lambda_handler scripted commute_event calm)
     = inr (ok_response scripted (MkResult "direct" (JString "Hi there"))
                        (JString (str_uuid 42))).
Proof.
  split; [reflexivity|]. split; [reflexivity|]. split; [reflexivity|].
  split; [reflexivity|].
  apply (calculated_request_is_explained scripted commute_event calm
           (parsed calm) (parsed calm) commute_question
           (scripted_dumps (JObject [ ("co2_kg", JInt 4) ]))
           (scripted_dumps (model_answer "Hi there"))
           (JString (str_uuid 42)) (JObject [ ("co2_kg", JInt 4) ])
           (JString "Hi there")
           eq_refl eq_refl eq_refl eq_refl eq_refl eq_refl).
Defined.

(** ** The table cannot change a response *)

(** With any other table behind the platform the handler returns the
    same response and makes the same calls, log lines aside: the outcome
    of the write shows only in the log. *)
Theorem table_only_affects_log {W} (P : Platform W)
    (put : string -> list (string * json) -> W -> (PyExc + unit) * W)
    (event : json) (w : W) :
  let r := lambda_handler P event w in
  let r' := lambda_handler (with_table P put) event w in
  outcome r' = outcome r
  /\ filter (fun c => negb (is_print c)) (calls r')
     = filter (fun c => negb (is_print c)) (calls r).
Proof.
  cbv zeta. rewrite !lambda_handler_run. cbv zeta.
  change (parse_request (with_table P put) event w)
    with (parse_request P event w).
  destruct (parse_request P event w) as [[e|[user_input conversation_id]] w0 c0];
    cbn [outcome world calls]; [split; reflexivity|].
  destruct (truthy user_input); [|split; reflexivity].
  change (route_request (with_table P put) user_input conversation_id w0)
    with (route_request P user_input conversation_id w0).
  destruct (route_request P user_input conversation_id w0) as [[e|result] w1 c1];
    cbn [outcome world calls]; [split; reflexivity|].
  split; [reflexivity|].
  rewrite !respond_run.
  destruct (String.eqb (status result) "direct"); [|reflexivity].
  cbv zeta. rewrite !store_conversation_run.
  change (datetime_now_ms (with_table P put) w1) with (datetime_now_ms P w1).
  destruct (datetime_now_ms P w1) as [t w2]. cbv beta iota zeta.
  change (dynamodb_put_item (with_table P put)) with put.
  destruct (put TABLE_NAME _ w2) as [[e1|u1] w3];
    destruct (dynamodb_put_item P TABLE_NAME _ w2) as [[e2|u2] w4];
    cbn [calls]; rewrite !filter_app; reflexivity.
Qed.

(** ** The substring test and letter case *)

Lemma prefix_split (n h : string) :
  String.prefix n h = true -> exists b, h = n ++ b.
Proof.
  revert h. induction n as [|c n IH]; intros h; [exists h; reflexivity|].
  destruct h as [|c' h]; [discriminate|]. simpl.
  destruct (ascii_dec c c') as [<-|_]; [|discriminate].
  intros Hp. destruct (IH h Hp) as [b ->]. exists b. reflexivity.
Qed.

(** [py_in], which stands for Python's [in] at lines 88 and 124, holds
    exactly when the needle occurs in the text. *)
Theorem py_in_iff_occurs (needle hay : string) :
  py_in needle hay = true <-> exists a b, hay = a ++ needle ++ b.
Proof.
  split.
  - induction hay as [|c hay IH]; simpl.
    + rewrite orb_false_r. intros Hp.
      destruct (prefix_split needle "" Hp) as [b ->]. exists "", b. reflexivity.
    + intros H. apply orb_true_iff in H. destruct H as [Hp|Hrest].
      * destruct (prefix_split needle (String c hay) Hp) as [b ->].
        exists "", b. reflexivity.
      * destruct (IH Hrest) as (a & b & ->). exists (String c a), b. reflexivity.
  - intros (a & b & ->). apply py_in_middle.
Qed.

Lemma lower_char_idempotent (c : ascii) : lower_char (lower_char c) = lower_char c.
Proof.
  destruct c as [[|] [|] [|] [|] [|] [|] [|] [|]]; reflexivity.
Qed.

Lemma lower_idempotent (s : string) : lower (lower s) = lower s.
Proof.
  induction s as [|c s IH]; [reflexivity|]. simpl.
  rewrite lower_char_idempotent, IH. reflexivity.
Qed.

Lemma route_request_calculation_calls {W} (P : Platform W) (text : string)
    (conversation_id : json) (w : W) :
  calls_of is_calculation (route_request P (JString text) conversation_id w)
  = if mentions_keyword text then [calculation_call P (JString text)] else [].
Proof.
  unfold calls_of, mentions_keyword.
  destruct (py_in "carbon" (lower text) || py_in "emission" (lower text)) eqn:K.
  - rewrite (route_request_calc _ _ _ _ K). cbv zeta. cbn [calls].
    rewrite filter_app, invoke_calculation_agent_calls,
      invoke_bedrock_with_queue_calls by reflexivity. reflexivity.
  - rewrite (route_request_plain _ _ _ _ K).
    rewrite invoke_bedrock_with_queue_calls by reflexivity. reflexivity.
Qed.

(** Routing ignores letter case: a text and its lowercase form either
    both go through the calculation function or both bypass it, and the
    query sent is the text as typed, with its case. *)
Theorem routing_ignores_case {W} (P : Platform W) (text : string)
    (conversation_id : json) (w w' : W) :
  mentions_keyword (lower text) = mentions_keyword text
  /\ (calls_of is_calculation
        (route_request P (JString (lower text)) conversation_id w') = []
      <-> calls_of is_calculation
            (route_request P (JString text) conversation_id w) = [])
  /\ (mentions_keyword text = true ->
      calls_of is_calculation (route_request P (JString text) conversation_id w)
      = [calculation_call P (JString text)]).
Proof.
  assert (Hk : mentions_keyword (lower text) = mentions_keyword text).
  { unfold mentions_keyword. rewrite lower_idempotent. reflexivity. }
  split; [exact Hk|].
  rewrite !route_request_calculation_calls, Hk.
  destruct (mentions_keyword text); split; try (split; discriminate);
    try (split; reflexivity); try reflexivity; try discriminate.
Qed.

Lemma routing_ignores_case_witness :
  mentions_keyword "My CARBON bill" = true
  /\ calls_of is_calculation
       (route_request scripted (JString "My CARBON bill") (JString "c-1") calm)
     = [calculation_call scripted (JString "My CARBON bill")].
Proof.
  split; [reflexivity|].
  destruct (routing_ignores_case scripted "My CARBON bill" (JString "c-1")
              calm calm) as (_ & _ & Hsent).
  exact (Hsent eq_refl).
Defined.

(** The calculation results as an f-string shows them. *)
Example explain_prompt_rendering :
  explain_prompt scripted (JObject [ ("co2_kg", JInt 4); ("unit", JString "kg") ])
  = "Explain these carbon emission calculation results briefly and clearly: {'co2_kg': 4, 'unit': 'kg'}".
Proof. reflexivity. Qed.
